(** * Daily-Top-News: the listing scraper, the image enrichment pass and
      the two news handlers of [NewsService]

    The development follows the Go sources:
    - the packages [utf8], [unicode] and [strings] of the Go library, as
      far as the scraper calls them, over byte strings;
    - the colly / goquery objects the scraper queries ([HTMLElement],
      [Request], [Document], [Selection]) as records of their methods;
    - [fetchTheDailyStarWithColly] with its [OnHTML] callback,
      [updateMissingImageURLs], [scrapeImageFromURL],
      [fetchNewsFromSource], [GetAllNews] and [GetNewsBySource].

    A Go [string] is a sequence of bytes: it is a Rocq [string], whose
    characters are the 256 byte values; [len] is [String.length]. *)

From Stdlib Require Import ZArith NArith Ascii String DecimalString.
From stdpp Require Import base option list gmap strings fin_maps.

Local Open Scope string_scope.
Local Open Scope Z_scope.

(** ** Package [unicode/utf8] *)

Module utf8.

Definition RuneError : N := 0xFFFD%N.
Definition RuneSelf : N := 0x80%N.

Definition byte (c : ascii) : N := N_of_ascii c.

Definition within (lo hi b : N) : bool := ((lo <=? b) && (b <=? hi))%N.

(** The table [first] together with [acceptRanges]: for a leading byte,
    the length of the sequence and the range its second byte must lie
    in; [None] for ASCII is never asked, [None] for the bytes that start
    no sequence. *)
Definition lead (b : N) : option (nat * N * N) :=
  (if b <? 0xC2 then None
   else if b <=? 0xDF then Some (2%nat, 0x80, 0xBF)
   else if b =? 0xE0 then Some (3%nat, 0xA0, 0xBF)
   else if b =? 0xED then Some (3%nat, 0x80, 0x9F)
   else if b <=? 0xEF then Some (3%nat, 0x80, 0xBF)
   else if b =? 0xF0 then Some (4%nat, 0x90, 0xBF)
   else if b <=? 0xF3 then Some (4%nat, 0x80, 0xBF)
   else if b =? 0xF4 then Some (4%nat, 0x80, 0x8F)
   else None)%N.

Definition cont (b : N) : N := N.land b 0x3F.

(** [utf8.DecodeRuneInString]: the first rune of [s] and its width in
    bytes; an invalid or truncated sequence is [RuneError] of width 1,
    the empty string is [RuneError] of width 0. *)
Definition DecodeRuneInString (s : string) : N * nat :=
  match s with
  | EmptyString => (RuneError, 0%nat)
  | String c0 t0 =>
    let s0 := byte c0 in
    if (s0 <? RuneSelf)%N then (s0, 1%nat)
    else
      match lead s0 with
      | None => (RuneError, 1%nat)
      | Some (sz, lo, hi) =>
        if (String.length s <? sz)%nat then (RuneError, 1%nat)
        else
          match t0 with
          | EmptyString => (RuneError, 1%nat)
          | String c1 t1 =>
            let s1 := byte c1 in
            if negb (within lo hi s1) then (RuneError, 1%nat)
            else if (sz <=? 2)%nat
            then (N.lor (N.shiftl (N.land s0 0x1F) 6) (cont s1), 2%nat)
            else
              match t1 with
              | EmptyString => (RuneError, 1%nat)
              | String c2 t2 =>
                let s2 := byte c2 in
                if negb (within 0x80 0xBF s2) then (RuneError, 1%nat)
                else if (sz <=? 3)%nat
                then (N.lor (N.shiftl (N.land s0 0x0F) 12)
                        (N.lor (N.shiftl (cont s1) 6) (cont s2)), 3%nat)
                else
                  match t2 with
                  | EmptyString => (RuneError, 1%nat)
                  | String c3 _ =>
                    let s3 := byte c3 in
                    if negb (within 0x80 0xBF s3) then (RuneError, 1%nat)
                    else (N.lor (N.shiftl (N.land s0 0x07) 18)
                            (N.lor (N.shiftl (cont s1) 12)
                               (N.lor (N.shiftl (cont s2) 6) (cont s3))),
                          4%nat)
                  end
              end
          end
      end
  end.

(** [utf8.RuneStart]: the byte is not a continuation byte. *)
Definition RuneStart (b : N) : bool := negb (N.land b 0xC0 =? 0x80)%N.

(** The index [start] that [DecodeLastRuneInString] reaches: it walks
    back from [end - 2] to [lim] and stops at the first byte that can
    start a rune, or at [lim] when there is none. *)
Fixpoint backToStart (s : string) (lim : nat) (steps : nat) (start : nat) : nat :=
  match steps with
  | O => lim
  | S k =>
    match String.get start s with
    | Some c =>
      if RuneStart (byte c) then start
      else match start with
           | O => lim
           | S p => if (p <? lim)%nat then lim else backToStart s lim k p
           end
    | None => lim
    end
  end.

(** [utf8.DecodeLastRuneInString]. *)
Definition DecodeLastRuneInString (s : string) : N * nat :=
  let e := String.length s in
  match e with
  | O => (RuneError, 0%nat)
  | S last =>
    match String.get last s with
    | None => (RuneError, 0%nat)
    | Some c =>
      let r := byte c in
      if (r <? RuneSelf)%N then (r, 1%nat)
      else
        let lim := (e - 4)%nat in
        let start :=
          match last with
          | O => lim
          | S p => if (p <? lim)%nat then lim else backToStart s lim 4 p
          end in
        let '(r', size) := DecodeRuneInString (substring start (e - start) s) in
        if (start + size =? e)%nat then (r', size) else (RuneError, 1%nat)
    end
  end.

End utf8.

(** ** Package [unicode] *)

Module unicode.

(** [unicode.IsSpace]: the Latin-1 spaces and the other code points of
    the [White_Space] table. *)
Definition IsSpace (r : N) : bool :=
  (utf8.within 0x09 0x0D r || (r =? 0x20) || (r =? 0x85) || (r =? 0xA0)
   || (r =? 0x1680) || utf8.within 0x2000 0x200A r
   || (r =? 0x2028) || (r =? 0x2029) || (r =? 0x202F)
   || (r =? 0x205F) || (r =? 0x3000))%N.

End unicode.

(** ** Package [strings] *)

Module strings.

(** [s[i:j]] and [s[i:]] for indices within the string. *)
Definition slice (s : string) (i j : nat) : string := substring i (j - i) s.
Definition sliceFrom (s : string) (i : nat) : string :=
  substring i (String.length s - i) s.

(** [strings.HasPrefix]. *)
Fixpoint HasPrefix (s prefix : string) : bool :=
  match prefix with
  | EmptyString => true
  | String p prefix' =>
    match s with
    | EmptyString => false
    | String c s' => Ascii.eqb c p && HasPrefix s' prefix'
    end
  end.

(** [strings.TrimPrefix]. *)
Definition TrimPrefix (s prefix : string) : string :=
  if HasPrefix s prefix then sliceFrom s (String.length prefix) else s.

(** [strings.Index]: the index of the first instance of [substr] in
    [s], or [-1]. *)
Fixpoint indexAt (i : Z) (s substr : string) : Z :=
  if HasPrefix s substr then i
  else match s with
       | EmptyString => -1
       | String _ s' => indexAt (i + 1) s' substr
       end.

Definition Index (s substr : string) : Z := indexAt 0 s substr.

(** [strings.Contains]. *)
Definition Contains (s substr : string) : bool := 0 <=? Index s substr.

(** [strings.Join]. *)
Definition Join (elems : list string) (sep : string) : string :=
  String.concat sep elems.

(** [strings.Split] for a non-empty separator (the scraper splits on
    ["/"], [","] and [" "]): the pieces between consecutive
    non-overlapping instances of [sep], always at least one piece.
    [cur] is the piece being read, [skip] the bytes of a matched
    separator still to pass over. *)
Fixpoint splitAux (sep : string) (skip : nat) (cur : string) (s : string)
  : list string :=
  match s with
  | EmptyString => [cur]
  | String c s' =>
    match skip with
    | S k => splitAux sep k cur s'
    | O =>
      if HasPrefix s sep
      then cur :: splitAux sep (String.length sep - 1) EmptyString s'
      else splitAux sep O (cur ++ String c EmptyString) s'
    end
  end.

Definition Split (s sep : string) : list string := splitAux sep O EmptyString s.

(** [strings.ReplaceAll] for a non-empty [old] (the scraper replaces
    single control characters): every non-overlapping instance, from
    the left. *)
Fixpoint replaceAux (old new : string) (skip : nat) (s : string) : string :=
  match s with
  | EmptyString => EmptyString
  | String c s' =>
    match skip with
    | S k => replaceAux old new k s'
    | O =>
      if HasPrefix s old
      then new ++ replaceAux old new (String.length old - 1) s'
      else String c (replaceAux old new O s')
    end
  end.

Definition ReplaceAll (s old new : string) : string :=
  match old with
  | EmptyString => s
  | _ => replaceAux old new O s
  end.

(** [indexFunc s f false]: the byte index of the first rune that does
    not satisfy [f], or [-1]. *)
Fixpoint indexNot (f : N -> bool) (i : Z) (skip : nat) (s : string) : Z :=
  match s with
  | EmptyString => -1
  | String _ s' =>
    match skip with
    | S k => indexNot f (i + 1) k s'
    | O =>
      let '(r, size) := utf8.DecodeRuneInString s in
      if f r then indexNot f (i + 1) (size - 1) s' else i
    end
  end.

(** [strings.TrimLeftFunc]. *)
Definition TrimLeftFunc (s : string) (f : N -> bool) : string :=
  let i := indexNot f 0 O s in
  if i =? -1 then EmptyString else sliceFrom s (Z.to_nat i).

(** [lastIndexFunc s f false]: the byte index of the last rune that
    does not satisfy [f], or [-1]. Every turn of the Go loop lowers [i]
    by the width of a rune, which is at least 1: [fuel] counts the
    turns and [String.length s] of them are always enough. *)
Fixpoint lastIndexNot (f : N -> bool) (fuel : nat) (s : string) (i : nat) : Z :=
  match fuel with
  | O => -1
  | S fuel' =>
    match i with
    | O => -1
    | S _ =>
      let '(r, size) := utf8.DecodeLastRuneInString (slice s 0 i) in
      let i' := (i - size)%nat in
      if f r then lastIndexNot f fuel' s i' else Z.of_nat i'
    end
  end.

(** [strings.TrimRightFunc]. *)
Definition TrimRightFunc (s : string) (f : N -> bool) : string :=
  let i := lastIndexNot f (String.length s) s (String.length s) in
  let j :=
    if (0 <=? i) &&
       match String.get (Z.to_nat i) s with
       | Some c => (utf8.RuneSelf <=? utf8.byte c)%N
       | None => false
       end
    then i + Z.of_nat (snd (utf8.DecodeRuneInString (sliceFrom s (Z.to_nat i))))
    else i + 1 in
  slice s 0 (Z.to_nat j).

(** [strings.TrimSpace]: leading and trailing white space, as defined
    by Unicode, removed. *)
Definition TrimSpace (s : string) : string :=
  TrimRightFunc (TrimLeftFunc s unicode.IsSpace) unicode.IsSpace.

(** [strings.Fields]: the maximal runs of runes that are not white
    space. [cur] is the field being read when [infield] holds; [skip]
    counts the remaining bytes of the rune just decoded, which belong
    to the field exactly when [infield] holds. *)
Fixpoint fieldsAux (skip : nat) (infield : bool) (cur : string) (s : string)
  : list string :=
  match s with
  | EmptyString => if infield then [cur] else []
  | String c s' =>
    match skip with
    | S k =>
      if infield then fieldsAux k true (cur ++ String c EmptyString) s'
      else fieldsAux k false cur s'
    | O =>
      let '(r, size) := utf8.DecodeRuneInString s in
      if unicode.IsSpace r
      then (if infield then [cur] else []) ++ fieldsAux (size - 1) false EmptyString s'
      else fieldsAux (size - 1) true (cur ++ String c EmptyString) s'
    end
  end.

Definition Fields (s : string) : list string := fieldsAux O false EmptyString s.

End strings.

(** [strconv.Itoa] / the verb [%d] of [fmt.Sprintf]. *)
Definition Itoa (n : Z) : string := NilZero.string_of_int (Z.to_int n).

(** [len] of a string and of a slice, as a Go [int]. *)
Definition len (s : string) : Z := Z.of_nat (String.length s).
Definition lenSlice {A} (l : list A) : Z := Z.of_nat (length l).

(** The control characters the scraper names. *)
Definition LF : string := String (ascii_of_nat 10) "".
Definition CR : string := String (ascii_of_nat 13) "".
Definition TAB : string := String (ascii_of_nat 9) "".

(** ** The data model *)

(** [time.Time], as seconds of wall-clock time. *)
Definition Time := Z.

(** [NewsArticle], as the models file (src/README.md, lines 155-165) and
    the stand-alone scraper declare it: the seven fields the scraper's
    composite literal fills in. The models file adds an optional
    [Category], which no function of the service assigns or reads. *)
Module NewsArticle.
Record t := mk {
  ID : string;
  Title : string;
  Description : string;
  ImageURL : string;
  URL : string;
  Source : string;
  PublishedAt : Time
}.

(** The assignment [a.ImageURL = v]. *)
Definition setImageURL (a : t) (v : string) : t :=
  mk (ID a) (Title a) (Description a) v (URL a) (Source a) (PublishedAt a).
End NewsArticle.

(** [Source], as the models file declares it (src/README.md, lines
    181-187): one entry of the registry [ns.sources]. *)
Module Source.
Record t := mk {
  Name : string;
  DisplayName : string;
  URL : string;
  Active : bool
}.
End Source.

(** [NewsResponse], as the models file declares it (src/README.md, lines
    167-173): the success envelope of the news handlers. *)
Module NewsResponse.
Record t := mk {
  Success : bool;
  Data : list NewsArticle.t;
  Count : Z;
  Source : string
}.
End NewsResponse.

(** [ErrorResponse], as the models file declares it (src/README.md, lines
    189-194): the error envelope. *)
Module ErrorResponse.
Record t := mk {
  Success : bool;
  Error : string;
  Message : string
}.
End ErrorResponse.

(** What a handler hands to [c.JSON]: the status code and the body. The
    status codes are those of [net/http]. *)
Inductive Body :=
| NewsBody (r : NewsResponse.t)
| ErrorBody (r : ErrorResponse.t).

Record JSON := { Status : Z; Payload : Body }.

Definition StatusOK : Z := 200.
Definition StatusBadRequest : Z := 400.
Definition StatusNotFound : Z := 404.
Definition StatusInternalServerError : Z := 500.

(** ** The objects of colly and goquery the scraper queries

    The markup itself and the selector engine belong to the libraries;
    an element is what its query methods answer. *)

(** [colly.Request]: [AbsoluteURL] resolves a reference against the page
    being visited. *)
Record Request := { AbsoluteURL : string -> string }.

(** [colly.HTMLElement]: [ChildText selector] and
    [ChildAttr selector attribute] over the descendants of the element. *)
Record HTMLElement := {
  ChildText : string -> string;
  ChildAttr : string -> string -> string;
  Req : Request
}.

(** [goquery.Selection] of one node, as [Each] passes it to its callback:
    [Attr name] is the value and whether the attribute exists, [Text] the
    text of the node. *)
Record Selection := { Attr : string -> option string; Text : string }.

(** [goquery.Document]: [Find selector] lists the matching nodes in
    document order. *)
Record Document := { Find : string -> list Selection }.

(** The outcome of [c.Visit url]: an error, or the page was fetched and the
    [OnHTML] callback ran on every element matching its selector, in
    document order. The collector is synchronous and the callback visits
    no further page. (When the request fails the collector also runs the
    [OnError] callback, which writes a log line and nothing else; the
    traces below hold the log lines of the service's own functions and
    not that one.) *)
Inductive VisitResult :=
| VisitError (err : string)
| Visited (elements : list HTMLElement).

(** The outcome of the GET request of [scrapeImageFromURL], step by step:
    [http.NewRequest] fails; [client.Do] fails; or a response arrives with
    its status code and what [goquery.NewDocumentFromReader] makes of its
    body. *)
Inductive GetResult :=
| NewRequestError (err : string)
| DoError (err : string)
| Response (StatusCode : Z) (parsed : Document + string).

(** The world the service runs in: the sites as they answer during one
    run, and the clock: [Now k] is what [time.Now()] reads for the article
    numbered [k] of a crawl. *)
Record World := {
  Visit : string -> VisitResult;
  Get : string -> GetResult;
  Now : Z -> Time
}.

(** ** Effects

    What the service does besides computing its result, in order. *)
Inductive Event :=
| EvGet (url : string)
| EvLog (msg : string)
| EvSleep (seconds : Z).

Definition Eff (A : Type) : Type := A * list Event.

#[global] Instance Eff_ret : MRet Eff := fun A a => (a, []).
#[global] Instance Eff_bind : MBind Eff := fun A B k m =>
  let '(a, l1) := m in let '(b, l2) := k a in (b, (l1 ++ l2)%list).

Definition emit (e : Event) : Eff unit := (tt, [e]).

(** ** [NewsService] *)

(** The registry [ns.sources]. (The [client] field configures time-outs
    and redirects only.) *)
Record NewsService := { sources : gmap string Source.t }.

Definition NewNewsService : NewsService :=
  {| sources :=
       {[ "thedailystar" :=
            Source.mk "thedailystar" "The Daily Star"
                      "https://www.thedailystar.net/" true ]} |}.

(** ** The listing scraper: the [OnHTML] callback *)

(** What the callback closes over: the slice [articles] and the counter
    [articleID]. *)
Record Scrape := { articles : list NewsArticle.t; articleID : Z }.

Definition titleSelectors : list string :=
  ["h1"; "h2"; "h3"; "h4"; ".title"; ".headline"].

(** The loop over [titleSelectors]: [title] is assigned at every turn and
    the loop breaks at the first text that is non-empty and at least 10
    bytes long. *)
Fixpoint titleLoop (e : HTMLElement) (selectors : list string) (title : string)
  : string :=
  match selectors with
  | [] => title
  | selector :: rest =>
    let title := strings.TrimSpace (ChildText e selector) in
    if negb (title =? "")%string && (10 <=? len title)
    then title
    else titleLoop e rest title
  end.

(** "Clean up title": line breaks and tabs to spaces, runs of white space
    to one space. *)
Definition normalizeTitle (title : string) : string :=
  let title := strings.ReplaceAll title LF " " in
  let title := strings.ReplaceAll title CR " " in
  let title := strings.ReplaceAll title TAB " " in
  strings.Join (strings.Fields title) " ".

(** [if idx := strings.Index(title, sep); idx != -1 { title =
    strings.TrimSpace(title[:idx]) }]. *)
Definition truncateAt (sep : string) (title : string) : string :=
  let idx := strings.Index title sep in
  if negb (idx =? -1) then strings.TrimSpace (strings.slice title 0 (Z.to_nat idx))
  else title.

(** "Truncate at first comma or period". *)
Definition truncateTitle (title : string) : string :=
  truncateAt "." (truncateAt "," title).

Definition origin : string := "https://www.thedailystar.net".

(** "Filter out category links": the test on [pathSegments]. The index
    [len(pathSegments)-1] is read only when the length exceeds 3. *)
Definition isCategoryLink (link : string) : bool :=
  let pathSegments := strings.Split (strings.TrimPrefix link origin) "/" in
  (lenSlice pathSegments <=? 3)
  || match pathSegments !! Z.to_nat (lenSlice pathSegments - 1) with
     | Some seg => (seg =? "")%string
     | None => false
     end.

(** "Skip if not a news article link": the condition of the [if]. *)
Definition notNewsLink (link : string) : bool :=
  negb (strings.Contains link "/news/") &&
  negb (strings.Contains link "/bangladesh/") &&
  negb (strings.Contains link "/world/") &&
  negb (strings.Contains link "/business/") &&
  negb (strings.Contains link "/sports/") &&
  negb (strings.Contains link "/entertainment/").

(** "Skip duplicates": the scan of [articles]. *)
Definition isDuplicate (articles : list NewsArticle.t) (link : string) : bool :=
  existsb (fun article => (NewsArticle.URL article =? link)%string) articles.

Definition imageAttrs : list string :=
  ["src"; "data-src"; "data-lazy-src"; "data-srcset"; "data-original";
   "data-image"; "data-lazy"].

(** The loop over the attributes of [img]: [imageURL] is assigned at every
    turn and the loop breaks at the first non-empty value. *)
Fixpoint imageLoop (e : HTMLElement) (attrs : list string) (imageURL : string)
  : string :=
  match attrs with
  | [] => imageURL
  | attr :: rest =>
    let imageURL := ChildAttr e "img" attr in
    if negb (imageURL =? "")%string then imageURL
    else imageLoop e rest imageURL
  end.

(** [strings.Split(s, sep)[0]]; [Split] returns at least one piece. *)
Definition first (pieces : list string) : string :=
  match pieces with
  | piece :: _ => piece
  | [] => ""
  end.

(** The treatment of a non-empty [imageURL]: it is resolved against the
    page, and of a resolved value that contains a comma only what stands
    before the first comma, and of that before the first space, is
    kept. *)
Definition resolveImage (e : HTMLElement) (imageURL : string) : string :=
  let imageURL := AbsoluteURL (Req e) imageURL in
  if strings.Contains imageURL "," then
    let imageURL := first (strings.Split imageURL ",") in
    strings.TrimSpace (first (strings.Split imageURL " "))
  else imageURL.

(** "Extract image URL". *)
Definition extractImage (e : HTMLElement) : string :=
  let imageURL := imageLoop e imageAttrs "" in
  let imageURL :=
    if (imageURL =? "")%string then ChildAttr e "picture source" "srcset"
    else imageURL in
  if negb (imageURL =? "")%string then resolveImage e imageURL
  else imageURL.

(** "Extract description". *)
Definition extractDescription (e : HTMLElement) : string :=
  let description :=
    strings.TrimSpace
      (ChildText e "p, .summary, .intro, .teaser-text, .excerpt, .description") in
  if negb (description =? "")%string && (200 <? len description)
  then strings.slice description 0 200 ++ "..."
  else description.

(** The callback registered with [c.OnHTML], on one element; every
    [return] of the Go code leaves the state as it is. [now] is what
    [time.Now()] reads. *)
Definition onHTML (now : Time) (e : HTMLElement) (st : Scrape) : Scrape :=
  if 10 <=? lenSlice (articles st) then st
  else
    let title := titleLoop e titleSelectors "" in
    if (title =? "")%string then st
    else
      let title := truncateTitle (normalizeTitle title) in
      let link := ChildAttr e "a" "href" in
      if (link =? "")%string then st
      else
        let link := AbsoluteURL (Req e) link in
        if isCategoryLink link then st
        else if notNewsLink link then st
        else if isDuplicate (articles st) link then st
        else
          let imageURL := extractImage e in
          let description := extractDescription e in
          let article :=
            NewsArticle.mk ("dailystar_" ++ Itoa (articleID st))
                           title description imageURL link
                           "thedailystar" now in
          {| articles := (articles st ++ [article])%list;
             articleID := articleID st + 1 |}.

(** A Go result pair [(value, error)]: the value when the error is [nil],
    else the text of the error. *)
Inductive result (A : Type) :=
| Ok (value : A)
| Err (err : string).
Arguments Ok {A} value.
Arguments Err {A} err.

Section Service.

Context (w : World).

(** ** The enrichment pass *)

(** The callback of [Each] in [scrapeImageFromURL], over the nodes of a
    selection: [imageURL] takes the value of the attribute at the first
    node where the attribute exists while [imageURL] is still empty. *)
Definition eachAttr (attr : string) (nodes : list Selection) (imageURL : string)
  : string :=
  fold_left
    (fun imageURL s =>
       match Attr s attr with
       | Some src => if (imageURL =? "")%string then src else imageURL
       | None => imageURL
       end)
    nodes imageURL.

(** The four look-ups of [scrapeImageFromURL] on the parsed page. *)
Definition findImage (url : string) (doc : Document) : result string :=
  let imageURL := eachAttr "data-srcset" (Find doc "picture img") "" in
  if negb (imageURL =? "")%string then Ok imageURL
  else
    let imageURL := eachAttr "data-src" (Find doc "span.lg-gallery") imageURL in
    if negb (imageURL =? "")%string then Ok imageURL
    else
      let imageURL :=
        eachAttr "content" (Find doc "meta[property='og:image']") imageURL in
      if negb (imageURL =? "")%string then Ok imageURL
      else
        let imageURL :=
          eachAttr "src" (Find doc "article img, div.section-media img") imageURL in
        if negb (imageURL =? "")%string then Ok imageURL
        else Err ("no image found on page: " ++ url).

(** [scrapeImageFromURL]. *)
Definition scrapeImageFromURL (url : string) : Eff (result string) :=
  match Get w url with
  | NewRequestError err => mret (Err ("failed to create request: " ++ err))
  | DoError err =>
    emit (EvGet url);;
    mret (Err ("failed to fetch URL " ++ url ++ ": " ++ err))
  | Response StatusCode parsed =>
    emit (EvGet url);;
    if negb (StatusCode =? StatusOK)
    then mret (Err ("unexpected status code: " ++ Itoa StatusCode))
    else
      match parsed with
      | inr err => mret (Err ("failed to parse HTML: " ++ err))
      | inl doc => mret (findImage url doc)
      end
  end.

(** The loop [for i := range *articles] of [updateMissingImageURLs]:
    [n] turns are left, [i] is the index of this turn; the slice is
    updated in place at index [i]. *)
Fixpoint updateLoop (n : nat) (i : nat) (articles : list NewsArticle.t)
  : Eff (list NewsArticle.t) :=
  match n with
  | O => mret articles
  | S n' =>
    match articles !! i with
    | None => mret articles
    | Some a =>
      if (NewsArticle.ImageURL a =? "")%string then
        r ← scrapeImageFromURL (NewsArticle.URL a);
        match r with
        | Err err =>
          emit (EvLog ("Error scraping image: " ++ err));;
          updateLoop n' (S i) articles
        | Ok imageURL =>
          emit (EvSleep 1);;
          updateLoop n' (S i) (<[i := NewsArticle.setImageURL a imageURL]> articles)
        end
      else updateLoop n' (S i) articles
    end
  end.

(** [updateMissingImageURLs]. *)
Definition updateMissingImageURLs (articles : list NewsArticle.t)
  : Eff (list NewsArticle.t) :=
  updateLoop (length articles) 0 articles.

(** ** The listing scraper *)

(** The callback on every matching element of the page, in order,
    starting from no article. *)
Definition crawl (elements : list HTMLElement) : Scrape :=
  fold_left (fun st e => onHTML (Now w (articleID st)) e st) elements
            {| articles := []; articleID := 0 |}.

(** [fetchTheDailyStarWithColly]. *)
Definition fetchTheDailyStarWithColly (url : string)
  : Eff (result (list NewsArticle.t)) :=
  match Visit w url with
  | VisitError err => mret (Err ("failed to visit: " ++ err))
  | Visited elements =>
    articles ← updateMissingImageURLs (articles (crawl elements));
    mret (Ok articles)
  end.

(** [fetchNewsFromSource]. *)
Definition fetchNewsFromSource (sourceName url : string)
  : Eff (result (list NewsArticle.t)) :=
  if (sourceName =? "thedailystar")%string
  then fetchTheDailyStarWithColly url
  else mret (Err ("unsupported source: " ++ sourceName)).

(** ** The handlers *)

(** [GetNewsBySource], with [sourceName] the path parameter. *)
Definition GetNewsBySource (ns : NewsService) (sourceName : string) : Eff JSON :=
  match sources ns !! sourceName with
  | None =>
    mret {| Status := StatusNotFound;
            Payload := ErrorBody (ErrorResponse.mk false "source_not_found"
                                    "News source not found") |}
  | Some source =>
    if negb (Source.Active source) then
      mret {| Status := StatusBadRequest;
              Payload := ErrorBody (ErrorResponse.mk false "source_inactive"
                                      "News source is currently inactive") |}
    else
      r ← fetchNewsFromSource sourceName (Source.URL source);
      match r with
      | Err err =>
        mret {| Status := StatusInternalServerError;
                Payload := ErrorBody (ErrorResponse.mk false "fetch_error"
                                        ("Failed to fetch news: " ++ err)) |}
      | Ok news =>
        mret {| Status := StatusOK;
                Payload := NewsBody (NewsResponse.mk true news (lenSlice news)
                                       sourceName) |}
      end
  end.

(** The goroutine [GetAllNews] starts for one source: what it sends on
    the channel [allNews]. *)
Definition worker (sourceName : string) (source : Source.t)
  : Eff (list NewsArticle.t) :=
  r ← fetchNewsFromSource sourceName (Source.URL source);
  match r with
  | Err err =>
    emit (EvLog ("Error fetching from " ++ sourceName ++ ": " ++ err));;
    mret []
  | Ok news => mret news
  end.

(** The sources [GetAllNews] starts a goroutine for: the active entries
    of the registry. *)
Definition launched (ns : NewsService) : list (string * Source.t) :=
  filter (fun entry => Source.Active entry.2 = true) (map_to_list (sources ns)).

(** The loop [for news := range allNews], over what the channel
    delivers. *)
Definition collect (received : list (list NewsArticle.t)) : list NewsArticle.t :=
  fold_left (fun allArticles news => (allArticles ++ news)%list) received [].

(** The response of [GetAllNews] when the goroutines send in the order
    [arrival]. *)
Definition respondAll (arrival : list (string * Source.t)) : JSON :=
  let allArticles := collect ((fun entry => (worker entry.1 entry.2).1) <$> arrival) in
  {| Status := StatusOK;
     Payload := NewsBody (NewsResponse.mk true allArticles (lenSlice allArticles) "") |}.

(** [GetAllNews]: every goroutine sends once on the buffered channel,
    the channel is closed when all are done, and the handler reads the
    channel to its end; the goroutines run concurrently, so the order
    of arrival is any order of the launched sources. *)
Inductive GetAllNews (ns : NewsService) : JSON -> Prop :=
| GetAllNews_arrival (arrival : list (string * Source.t)) :
    arrival ≡ₚ launched ns ->
    GetAllNews ns (respondAll arrival).

End Service.

(** ** Notions the properties are stated with *)

(** The link the callback reads off an element, resolved. *)
Definition linkOf (e : HTMLElement) : string :=
  AbsoluteURL (Req e) (ChildAttr e "a" "href").

(** The section keywords of the source, as [notNewsLink] lists them. *)
Definition sectionKeywords : list string :=
  ["/news/"; "/bangladesh/"; "/world/"; "/business/"; "/sports/"; "/entertainment/"].

(** The trimmed text of the first title selector whose text passes the
    test of the title loop (non-empty and at least 10 bytes), when there
    is one. *)
Definition acceptedTitle (e : HTMLElement) : option string :=
  head (filter (fun title => negb (title =? "")%string && (10 <=? len title) = true)
               ((fun selector => strings.TrimSpace (ChildText e selector))
                  <$> titleSelectors)).

(** The scheme of a URL, as [getScheme] of [net/url] reads it: letters,
    and after the first character digits, [+], [-] and [.], up to a
    colon; empty when there is none. *)
Fixpoint schemeAt (i : nat) (rawURL rest : string) : string :=
  match rest with
  | EmptyString => ""
  | String c rest' =>
    let b := utf8.byte c in
    if (utf8.within 97 122 b || utf8.within 65 90 b)%N
    then schemeAt (S i) rawURL rest'
    else if (utf8.within 48 57 b || (b =? 43) || (b =? 45) || (b =? 46))%N
    then match i with O => "" | S _ => schemeAt (S i) rawURL rest' end
    else if (b =? 58)%N
    then match i with O => "" | S _ => strings.slice rawURL 0 i end
    else ""
  end.

Definition getScheme (rawURL : string) : string := schemeAt O rawURL rawURL.

(** An absolute URL has a scheme ([IsAbs] of [net/url]). *)
Definition IsAbs (rawURL : string) : bool := negb (getScheme rawURL =? "")%string.

(** An article the callback builds from an element: the fields it reads
    off the element, and the tests the element has passed. *)
Definition builtFrom (e : HTMLElement) (a : NewsArticle.t) : Prop :=
  NewsArticle.Title a = truncateTitle (normalizeTitle (titleLoop e titleSelectors "")) /\
  NewsArticle.Description a = extractDescription e /\
  NewsArticle.ImageURL a = extractImage e /\
  NewsArticle.URL a = linkOf e /\
  NewsArticle.Source a = "thedailystar" /\
  titleLoop e titleSelectors "" <> "" /\
  isCategoryLink (linkOf e) = false /\
  notNewsLink (linkOf e) = false.

(** The machine-readable kind of an error response; [None] for a success
    response. *)
Definition errorKind (resp : JSON) : option string :=
  match Payload resp with
  | ErrorBody r => Some (ErrorResponse.Error r)
  | NewsBody _ => None
  end.

(** The success response of [GetAllNews] with the given articles. *)
Definition allNewsResponse (data : list NewsArticle.t) : JSON :=
  {| Status := StatusOK;
     Payload := NewsBody (NewsResponse.mk true data (lenSlice data) "") |}.

Section Notions.

Context (w : World).

(** What the enrichment pass makes of one article, and what it does for
    it, taken by itself. *)
Definition enriched (a : NewsArticle.t) : NewsArticle.t :=
  if (NewsArticle.ImageURL a =? "")%string then
    match (scrapeImageFromURL w (NewsArticle.URL a)).1 with
    | Ok imageURL => NewsArticle.setImageURL a imageURL
    | Err _ => a
    end
  else a.

Definition enrichmentEvents (a : NewsArticle.t) : list Event :=
  if (NewsArticle.ImageURL a =? "")%string then
    let '(r, events) := scrapeImageFromURL w (NewsArticle.URL a) in
    match r with
    | Ok _ => events ++ [EvSleep 1]
    | Err err => events ++ [EvLog ("Error scraping image: " ++ err)]
    end%list
  else [].

(** What a source contributes to [GetAllNews] when its scrape succeeds. *)
Definition scraped (entry : string * Source.t) : option (list NewsArticle.t) :=
  match (fetchNewsFromSource w entry.1 (Source.URL entry.2)).1 with
  | Ok news => Some news
  | Err _ => None
  end.

End Notions.

(** ** Concrete pages

    Elements and documents given by the texts and attributes their
    queries find, for the examples below. *)

Fixpoint assoc {A} (key : string) (table : list (string * A)) : option A :=
  match table with
  | [] => None
  | (k, v) :: rest => if (k =? key)%string then Some v else assoc key rest
  end.

(** How the request of the front page [https://www.thedailystar.net/]
    resolves the references of the examples: a fragment to nothing, a URL
    with a scheme to itself, a rooted path against the origin, any other
    path against the front page. *)
Definition frontPage : Request :=
  {| AbsoluteURL := fun u =>
       if strings.HasPrefix u "#" then ""
       else if strings.HasPrefix u "https://" || strings.HasPrefix u "http://" then u
       else if strings.HasPrefix u "/" then origin ++ u
       else origin ++ "/" ++ u |}.

(** An element of the front page: [texts] maps a selector to the text of
    its matches, [attrs] maps a selector to the attributes of its first
    match. *)
Definition element (texts : list (string * string))
           (attrs : list (string * list (string * string))) : HTMLElement :=
  {| ChildText := fun selector => default "" (assoc selector texts);
     ChildAttr := fun selector attr =>
       default "" (assoc selector attrs ≫= assoc attr);
     Req := frontPage |}.

(** A node with the given attributes (and no text), a node with the given
    text (and no attribute), and a document given by the nodes each
    selector finds. *)
Definition node (attrs : list (string * string)) : Selection :=
  {| Attr := fun name => assoc name attrs; Text := "" |}.

Definition paragraph (text : string) : Selection :=
  {| Attr := fun _ => None; Text := text |}.

Definition document (found : list (string * list Selection)) : Document :=
  {| Find := fun selector => default [] (assoc selector found) |}.

(** ** Example pages *)

Definition frontPageURL : string := "https://www.thedailystar.net/".

(** A teaser with a headline, a link to a story, and an image that has both
    [src] and [data-srcset]. *)
Definition floodTeaser : HTMLElement :=
  element [("h2", "Breaking: city hall, flooded after storm.")]
          [("a", [("href", "/news/bangladesh/2024/flood-story")]);
           ("img", [("src", "/a.jpg"); ("data-srcset", "/b.jpg 1x, /c.jpg 2x")])].

(** A teaser whose headline has a comma after two letters, and no image. *)
Definition greetingTeaser : HTMLElement :=
  element [("h2", "Hi, this is a long headline")]
          [("a", [("href", "/news/bangladesh/2024/greeting")])].

(** A teaser with the given link and a headline of 29 bytes. *)
Definition teaserTo (href : string) : HTMLElement :=
  element [("h3", "City hall flooded after storm")] [("a", [("href", href)])].

(** A story page with Open Graph tags for image and description. *)
Definition storyPage : Document :=
  document
    [("meta[property='og:image']",
      [node [("content", "https://www.thedailystar.net/img/flood.jpg")]]);
     ("meta[property='og:description']",
      [node [("content", "Flood water entered city hall on Monday after a night of heavy rain.")]]);
     ("meta[name='description']",
      [node [("content", "Flood water entered city hall on Monday after a night of heavy rain.")]])].

(** A story page whose only image is in the article body, with a rooted
    path as [src]. *)
Definition bodyImagePage : Document :=
  document
    [("article img, div.section-media img",
      [node [("src", "/sites/default/files/flood.jpg")]])].

Definition clock : Z -> Time := fun k => 1750510800 + k.

(** The front page shows the flood teaser twice around the greeting
    teaser; every story page is [storyPage]. *)
Definition sampleWorld : World :=
  {| Visit := fun _ => Visited [floodTeaser; greetingTeaser; floodTeaser];
     Get := fun _ => Response 200 (inl storyPage);
     Now := clock |}.

(** The front page shows the greeting teaser; its story page is
    [bodyImagePage]. *)
Definition bodyImageWorld : World :=
  {| Visit := fun _ => Visited [greetingTeaser];
     Get := fun _ => Response 200 (inl bodyImagePage);
     Now := clock |}.

(** No site answers. *)
Definition offlineWorld : World :=
  {| Visit := fun _ => VisitError "connection refused";
     Get := fun _ => DoError "connection refused";
     Now := clock |}.

(** An article the listing pass has given an image and no description,
    and one it has given neither. *)
Definition withImage : NewsArticle.t :=
  NewsArticle.mk "dailystar_0" "Breaking: city hall" ""
                 "https://www.thedailystar.net/a.jpg"
                 "https://www.thedailystar.net/news/bangladesh/2024/flood-story"
                 "thedailystar" 1750510800.

Definition bare : NewsArticle.t :=
  NewsArticle.mk "dailystar_1" "Hi" "" ""
                 "https://www.thedailystar.net/news/bangladesh/2024/greeting"
                 "thedailystar" 1750510801.

(** A registry with a second active source, which has no scraper. *)
Definition twoSources : NewsService :=
  {| sources :=
       <[ "cnn" := Source.mk "cnn" "CNN" "https://edition.cnn.com/" true ]>
         (sources NewNewsService) |}.

(** What [fetchTheDailyStarWithColly] returns in [sampleWorld]. *)
Definition sampleNews : list NewsArticle.t :=
  [NewsArticle.mk "dailystar_0" "Breaking: city hall" ""
                  "https://www.thedailystar.net/a.jpg"
                  "https://www.thedailystar.net/news/bangladesh/2024/flood-story"
                  "thedailystar" 1750510800;
   NewsArticle.mk "dailystar_1" "Hi" ""
                  "https://www.thedailystar.net/img/flood.jpg"
                  "https://www.thedailystar.net/news/bangladesh/2024/greeting"
                  "thedailystar" 1750510801].

(** What [updateMissingImageURLs] makes of [withImage; bare] in
    [sampleWorld], and what it does. *)
Definition enrichedPair : list NewsArticle.t :=
  [withImage;
   NewsArticle.setImageURL bare "https://www.thedailystar.net/img/flood.jpg"].

Definition pairEvents : list Event :=
  [EvGet "https://www.thedailystar.net/news/bangladesh/2024/greeting"; EvSleep 1].

(** ** Tactics *)

(** Closes the direction of an equivalence whose premise gives a response
    a status code or an error kind other than the one it has. *)
Ltac wrong_response :=
  first [ by intros [[=] _] | by intros [_ [=]] ].


From Stdlib Require DecimalZ DecimalPos.

(** ** [GetAvailableSources] *)

(** [SourcesResponse], as the models file declares it (src/README.md,
    lines 175-179). *)
Module SourcesResponse.
Record t := mk {
  Success : bool;
  Sources : list Source.t
}.
End SourcesResponse.

(** What [GetAvailableSources] hands to [c.JSON]. *)
Record SourcesJSON := { SourcesStatus : Z; SourcesPayload : SourcesResponse.t }.

(** The loop [for _, source := range ns.sources] over the entries in the
    order the map yields them, and the response built from the slice. *)
Definition respondSources (visited : list (string * Source.t)) : SourcesJSON :=
  let sources :=
    fold_left (fun sources entry => (sources ++ [entry.2])%list) visited [] in
  {| SourcesStatus := StatusOK;
     SourcesPayload := SourcesResponse.mk true sources |}.

(** [GetAvailableSources]: a Go map yields every entry once, in an order
    that is not specified. *)
Inductive GetAvailableSources (ns : NewsService) : SourcesJSON -> Prop :=
| GetAvailableSources_order (visited : list (string * Source.t)) :
    visited ≡ₚ map_to_list (sources ns) ->
    GetAvailableSources ns (respondSources visited).

(** ** The stand-alone scraper (the second [main] package) *)

Module Standalone.

(** [Response], the structure the program prints. *)
Record Response := {
  Success : bool;
  Data : list NewsArticle.t;
  Count : Z;
  Source : string
}.

(** What the callback closes over: [response] and [articleID]. *)
Record Run := { response : Response; articleID : Z }.

Definition titleSelectors : list string :=
  ["h1"; "h2"; "h3"; "h4";
   ".title"; ".headline";
   "h1 a"; "h2 a"; "h3 a"; "h4 a";
   ".title a"; ".headline a";
   "a[class*='title']"; "a[class*='headline']";
   ".article-title a"; ".news-title a"].

(** The loop over [titleSelectors]: [title] and [link] are assigned at
    every turn; the loop breaks when both are non-empty, and, when the
    selector gives a title and no link, [link] is assigned any link of the
    element and the loop breaks when that one is non-empty. *)
Fixpoint titleLinkLoop (e : HTMLElement) (selectors : list string)
         (title link : string) : string * string :=
  match selectors with
  | [] => (title, link)
  | selector :: rest =>
    let title := strings.TrimSpace (ChildText e selector) in
    let link := ChildAttr e selector "href" in
    if negb (title =? "")%string && negb (link =? "")%string then (title, link)
    else if negb (title =? "")%string && (link =? "")%string then
      let link := ChildAttr e "a" "href" in
      if negb (link =? "")%string then (title, link)
      else titleLinkLoop e rest title link
    else titleLinkLoop e rest title link
  end.

(** "Extract image URL": [src], else [data-src], else [data-lazy-src], and
    the value, empty or not, resolved. *)
Definition extractImage (e : HTMLElement) : string :=
  let imageURL := ChildAttr e "img" "src" in
  let imageURL :=
    if (imageURL =? "")%string then ChildAttr e "img" "data-src" else imageURL in
  let imageURL :=
    if (imageURL =? "")%string then ChildAttr e "img" "data-lazy-src" else imageURL in
  AbsoluteURL (Req e) imageURL.

(** The callback registered with [c.OnHTML], on one element. *)
Definition onHTML (now : Time) (e : HTMLElement) (run : Run) : Run :=
  let '(title, link) := titleLinkLoop e titleSelectors "" "" in
  if (title =? "")%string || (link =? "")%string then run
  else
    let title := truncateTitle (normalizeTitle title) in
    let link := AbsoluteURL (Req e) link in
    let imageURL := extractImage e in
    let article :=
      NewsArticle.mk ("dailystar_" ++ Itoa (articleID run))
                     title "" imageURL link "thedailystar" now in
    {| response :=
         {| Success := Success (response run);
            Data := (Data (response run) ++ [article])%list;
            Count := Count (response run) + 1;
            Source := Source (response run) |};
       articleID := articleID run + 1 |}.

Definition start : Run :=
  {| response := {| Success := true; Data := []; Count := 0;
                    Source := "thedailystar" |};
     articleID := 0 |}.

(** The assignment [response.Success = false]. *)
Definition failed (r : Response) : Response :=
  {| Success := false; Data := Data r; Count := Count r; Source := Source r |}.

(** [main], up to the response it marshals and prints: a failed visit
    sets [Success] to false (the [OnError] callback and the test of the
    error do the same), a visit that succeeds runs the callback on every
    matching element. *)
Definition main (w : World) : Response :=
  match Visit w "https://www.thedailystar.net/" with
  | VisitError _ => failed (response start)
  | Visited elements =>
    response (fold_left (fun run e => onHTML (Now w (articleID run)) e run)
                        elements start)
  end.

(** The elements the callback makes an article of: those where the loop
    ends with a title and a link. *)
Definition hasTitleAndLink (e : HTMLElement) : bool :=
  let '(title, link) := titleLinkLoop e titleSelectors "" "" in
  negb ((title =? "")%string || (link =? "")%string).

End Standalone.

(** ** Further notions the properties are stated with *)

(** The bytes of a string. *)
Definition bytes (s : string) : list ascii := list_ascii_of_string s.

(** The value of [attr] at the first node where it exists and is not
    empty; empty when there is no such node. *)
Definition firstValue (attr : string) (nodes : list Selection) : string :=
  default "" (head (filter (fun value => value <> "")
                           (omap (fun s => Attr s attr) nodes))).

(** The four places [findImage] looks at, in its order, with what each
    yields. *)
Definition imageCandidates (doc : Document) : list string :=
  [firstValue "data-srcset" (Find doc "picture img");
   firstValue "data-src" (Find doc "span.lg-gallery");
   firstValue "content" (Find doc "meta[property='og:image']");
   firstValue "src" (Find doc "article img, div.section-media img")].

(** The URLs requested and the seconds slept, read off a trace. *)
Definition requests (events : list Event) : list string :=
  omap (fun ev => match ev with EvGet url => Some url | _ => None end) events.

Definition slept (events : list Event) : Z :=
  foldr (fun ev total => match ev with EvSleep s => s + total | _ => total end)
        0 events.

(** An article the pass requests a page for: it has no image and a
    request for its URL can be made. *)
Definition requested (w : World) (a : NewsArticle.t) : bool :=
  (NewsArticle.ImageURL a =? "")%string &&
  match Get w (NewsArticle.URL a) with
  | NewRequestError _ => false
  | _ => true
  end.

(** An article the pass finds an image for. *)
Definition filled (w : World) (a : NewsArticle.t) : bool :=
  (NewsArticle.ImageURL a =? "")%string &&
  match (scrapeImageFromURL w (NewsArticle.URL a)).1 with
  | Ok _ => true
  | Err _ => false
  end.

(** What ["thedailystar"] contributes to [GetAllNews]: its articles when
    it is registered, active and its scrape succeeds. *)
Definition dailyStarNews (w : World) (ns : NewsService) : list NewsArticle.t :=
  match sources ns !! "thedailystar" with
  | Some source =>
    if Source.Active source
    then default [] (scraped w ("thedailystar", source))
    else []
  | None => []
  end.

(** What holds of the state of a crawl after any number of callbacks: the
    cap, the counter, and the numbering and time stamps of the
    articles. *)
Definition crawlInvariant (w : World) (st : Scrape) : Prop :=
  lenSlice (articles st) <= 10 /\
  articleID st = lenSlice (articles st) /\
  forall i a, articles st !! i = Some a ->
    NewsArticle.ID a = "dailystar_" ++ Itoa (Z.of_nat i) /\
    NewsArticle.PublishedAt a = Now w (Z.of_nat i).

(** What holds of the state of the stand-alone scraper after any number of
    callbacks. *)
Definition standaloneInvariant (run : Standalone.Run) : Prop :=
  let r := Standalone.response run in
  Standalone.Count r = lenSlice (Standalone.Data r) /\
  Standalone.articleID run = lenSlice (Standalone.Data r) /\
  Standalone.Success r = true /\
  Standalone.Source r = "thedailystar" /\
  forall i a, Standalone.Data r !! i = Some a ->
    NewsArticle.ID a = "dailystar_" ++ Itoa (Z.of_nat i) /\
    NewsArticle.Description a = "" /\
    NewsArticle.Source a = "thedailystar".

(** ** The service of package [handler]: its enrichment pass

    The copy of the service in package [handler] (src/README.md, from
    line 194) differs from the one above in its registry, in a second
    scraper, and in the pass it runs after the crawl:
    [updateArticleDetails] (lines 604-625) with
    [scrapeArticleDetailsFromURL] (lines 627-714). *)

Module Handler.

(** The assignment [article.Description = v]. *)
Definition setDescription (a : NewsArticle.t) (v : string) : NewsArticle.t :=
  NewsArticle.mk (NewsArticle.ID a) (NewsArticle.Title a) v
                 (NewsArticle.ImageURL a) (NewsArticle.URL a)
                 (NewsArticle.Source a) (NewsArticle.PublishedAt a).

(** The callback of [Each] over the meta tags: [description] takes the
    trimmed [content] at the first node where the attribute exists while
    [description] is still empty. *)
Definition eachContent (nodes : list Selection) (description : string) : string :=
  fold_left
    (fun description s =>
       match Attr s "content" with
       | Some content =>
         if (description =? "")%string then strings.TrimSpace content
         else description
       | None => description
       end)
    nodes description.

(** The callback of [Each] over the paragraphs: [description] takes the
    trimmed text of the first paragraph of more than 50 bytes while
    [description] is still empty. *)
Definition eachParagraph (nodes : list Selection) (description : string) : string :=
  fold_left
    (fun description s =>
       let pText := strings.TrimSpace (Text s) in
       if (50 <? len pText) && (description =? "")%string then pText
       else description)
    nodes description.

(** "Scrape Image URL": the four places, each looked at while [imageURL]
    is empty. *)
Definition findImageURL (doc : Document) : string :=
  let imageURL := eachAttr "data-srcset" (Find doc "picture img") "" in
  let imageURL :=
    if (imageURL =? "")%string
    then eachAttr "data-src" (Find doc "span.lg-gallery") imageURL
    else imageURL in
  let imageURL :=
    if (imageURL =? "")%string
    then eachAttr "content" (Find doc "meta[property='og:image']") imageURL
    else imageURL in
  if (imageURL =? "")%string
  then eachAttr "src" (Find doc "article img, div.section-media img") imageURL
  else imageURL.

(** "Scrape Description": the Open Graph description, else the meta
    description, else a paragraph of the content; cut to 200 bytes and
    ["..."] when longer. *)
Definition findDescription (doc : Document) : string :=
  let description := eachContent (Find doc "meta[property='og:description']") "" in
  let description :=
    if (description =? "")%string
    then eachContent (Find doc "meta[name='description']") description
    else description in
  let description :=
    if (description =? "")%string
    then eachParagraph
           (Find doc ".article__content p, .article-body p, .paragraph, .zn-body__paragraph")
           description
    else description in
  if negb (description =? "")%string && (200 <? len description)
  then strings.slice description 0 200 ++ "..."
  else description.

Section Details.

Context (w : World).

(** [scrapeArticleDetailsFromURL]: the image and the description found on
    the page, either of them possibly empty, or an error. *)
Definition scrapeArticleDetailsFromURL (url : string)
  : Eff (result (string * string)) :=
  match Get w url with
  | NewRequestError err => mret (Err ("failed to create request: " ++ err))
  | DoError err =>
    emit (EvGet url);;
    mret (Err ("failed to fetch URL " ++ url ++ ": " ++ err))
  | Response StatusCode parsed =>
    emit (EvGet url);;
    if negb (StatusCode =? StatusOK)
    then mret (Err ("unexpected status code: " ++ Itoa StatusCode))
    else
      match parsed with
      | inr err => mret (Err ("failed to parse HTML: " ++ err))
      | inl doc => mret (Ok (findImageURL doc, findDescription doc))
      end
  end.

(** The two assignments of the loop body: a field is assigned when it is
    empty and the value found is not. *)
Definition merge (article : NewsArticle.t) (imageURL description : string)
  : NewsArticle.t :=
  let article :=
    if (NewsArticle.ImageURL article =? "")%string && negb (imageURL =? "")%string
    then NewsArticle.setImageURL article imageURL
    else article in
  if (NewsArticle.Description article =? "")%string && negb (description =? "")%string
  then setDescription article description
  else article.

(** The loop [for i := range *articles] of [updateArticleDetails];
    [article] points into the slice, which is updated in place. *)
Fixpoint updateLoop (n : nat) (i : nat) (articles : list NewsArticle.t)
  : Eff (list NewsArticle.t) :=
  match n with
  | O => mret articles
  | S n' =>
    match articles !! i with
    | None => mret articles
    | Some article =>
      if (NewsArticle.ImageURL article =? "")%string
         || (NewsArticle.Description article =? "")%string
      then
        r ← scrapeArticleDetailsFromURL (NewsArticle.URL article);
        match r with
        | Err err =>
          emit (EvLog ("Error scraping details for " ++ NewsArticle.URL article
                       ++ ": " ++ err));;
          updateLoop n' (S i) articles
        | Ok (imageURL, description) =>
          emit (EvSleep 1);;
          updateLoop n' (S i) (<[i := merge article imageURL description]> articles)
        end
      else updateLoop n' (S i) articles
    end
  end.

(** [updateArticleDetails]. *)
Definition updateArticleDetails (articles : list NewsArticle.t)
  : Eff (list NewsArticle.t) :=
  updateLoop (length articles) 0 articles.

(** [fetchTheDailyStarWithColly] of package [handler]: collector and
    callback are those of this package's function, line for line; the
    enrichment pass that follows is [updateArticleDetails]. *)
Definition fetchTheDailyStarWithColly (url : string)
  : Eff (result (list NewsArticle.t)) :=
  match Visit w url with
  | VisitError err => mret (Err ("failed to visit: " ++ err))
  | Visited elements =>
    arts ← updateArticleDetails (articles (crawl w elements));
    mret (Ok arts)
  end.

(** What the pass makes of one article, taken by itself. *)
Definition detailed (a : NewsArticle.t) : NewsArticle.t :=
  if (NewsArticle.ImageURL a =? "")%string || (NewsArticle.Description a =? "")%string
  then
    match (scrapeArticleDetailsFromURL (NewsArticle.URL a)).1 with
    | Ok (imageURL, description) => merge a imageURL description
    | Err _ => a
    end
  else a.

Definition detailEvents (a : NewsArticle.t) : list Event :=
  if (NewsArticle.ImageURL a =? "")%string || (NewsArticle.Description a =? "")%string
  then
    let '(r, events) := scrapeArticleDetailsFromURL (NewsArticle.URL a) in
    match r with
    | Ok _ => events ++ [EvSleep 1]
    | Err err =>
      events ++ [EvLog ("Error scraping details for " ++ NewsArticle.URL a
                        ++ ": " ++ err)]
    end%list
  else [].

End Details.

End Handler.

(** ** Further example pages *)

(** Twelve teasers with twelve different links, on a site whose story
    pages do not answer. *)
Definition storyLink (k : Z) : string := "/news/bangladesh/2024/story-" ++ Itoa k.

Definition twelveTeasers : list HTMLElement :=
  (fun k => teaserTo (storyLink k)) <$> seqZ 0 12.

Definition crowdedWorld : World :=
  {| Visit := fun _ => Visited twelveTeasers;
     Get := fun _ => DoError "connection refused";
     Now := clock |}.

(** The first ten of them as articles. *)
Definition crowdedNews : list NewsArticle.t :=
  (fun k => NewsArticle.mk ("dailystar_" ++ Itoa k) "City hall flooded after storm"
                           "" "" (origin ++ storyLink k) "thedailystar" (clock k))
    <$> seqZ 0 10.

(** A teaser whose summary has 300 bytes, and the article made of it. *)
Definition longText : string := String.concat "" (replicate 30 "0123456789").

Definition longTeaser : HTMLElement :=
  element [("h3", "City hall flooded after storm");
           ("p, .summary, .intro, .teaser-text, .excerpt, .description", longText)]
          [("a", [("href", "/news/bangladesh/2024/long-read")])].

Definition longWorld : World :=
  {| Visit := fun _ => Visited [longTeaser];
     Get := fun _ => Response 200 (inl storyPage);
     Now := clock |}.

Definition longArticle : NewsArticle.t :=
  NewsArticle.mk "dailystar_0" "City hall flooded after storm"
                 (substring 0 200 longText ++ "...")
                 "https://www.thedailystar.net/img/flood.jpg"
                 (origin ++ "/news/bangladesh/2024/long-read")
                 "thedailystar" (clock 0).

(** ** Notions for the enrichment pass of package [handler] *)

(** The trimmed [content] at the first node where the attribute exists
    and is not empty once trimmed; empty when there is no such node. *)
Definition firstContent (nodes : list Selection) : string :=
  default "" (head (filter (fun value => value <> "")
                           (strings.TrimSpace
                              <$> omap (fun s => Attr s "content") nodes))).

(** The trimmed text of the first paragraph of more than 50 bytes; empty
    when there is none. *)
Definition firstParagraph (nodes : list Selection) : string :=
  default "" (head (filter (fun pText => 50 < len pText)
                           ((fun s => strings.TrimSpace (Text s)) <$> nodes))).

(** The three places [scrapeArticleDetailsFromURL] looks at for a
    description, in its order, with what each yields. *)
Definition descriptionCandidates (doc : Document) : list string :=
  [firstContent (Find doc "meta[property='og:description']");
   firstContent (Find doc "meta[name='description']");
   firstParagraph
     (Find doc ".article__content p, .article-body p, .paragraph, .zn-body__paragraph")].

(** An article [updateArticleDetails] requests a page for: it lacks an
    image or a description, and a request for its URL can be made. *)
Definition detailRequested (w : World) (a : NewsArticle.t) : bool :=
  ((NewsArticle.ImageURL a =? "")%string || (NewsArticle.Description a =? "")%string) &&
  match Get w (NewsArticle.URL a) with
  | NewRequestError _ => false
  | _ => true
  end.

(** A story page with no Open Graph description: a meta description
    that is blank, a short paragraph and a long one. *)
Definition plainPage : Document :=
  document
    [("meta[name='description']", [node [("content", "   ")]]);
     (".article__content p, .article-body p, .paragraph, .zn-body__paragraph",
      [paragraph "By our correspondent";
       paragraph "  Flood water entered city hall on Monday after a night of heavy rain.  "])].
(** * Properties *)

(** ** The string functions on small inputs *)

Example TrimSpace_ascii : strings.TrimSpace ("  a b" ++ TAB ++ LF) = "a b".
Proof. vm_compute. reflexivity. Qed.

(** U+00A0 (bytes C2 A0) and U+3000 (bytes E3 80 80) are white space. *)
Example TrimSpace_unicode :
  let nbsp := String (ascii_of_nat 194) (String (ascii_of_nat 160) "") in
  let wide := String (ascii_of_nat 227) (String (ascii_of_nat 128)
                (String (ascii_of_nat 128) "")) in
  strings.TrimSpace (nbsp ++ wide ++ "a" ++ nbsp ++ "b" ++ wide ++ " " ++ nbsp) =
  "a" ++ nbsp ++ "b".
Proof. vm_compute. reflexivity. Qed.

(** A lone continuation or leading byte is not white space. *)
Example TrimSpace_invalid :
  let stray := String (ascii_of_nat 160) "" in
  let cut := String (ascii_of_nat 194) "" in
  strings.TrimSpace (stray ++ " x " ++ cut) = stray ++ " x " ++ cut.
Proof. vm_compute. reflexivity. Qed.

Example Fields_runs :
  strings.Fields ("  city   hall" ++ LF ++ TAB ++ "flooded ") = ["city"; "hall"; "flooded"].
Proof. vm_compute. reflexivity. Qed.

Example Split_path :
  strings.Split "/news/bangladesh/" "/" = [""; "news"; "bangladesh"; ""].
Proof. vm_compute. reflexivity. Qed.

Example Split_none : strings.Split "" "/" = [""].
Proof. vm_compute. reflexivity. Qed.

Example Index_first : strings.Index "a,b,c" "," = 1 /\ strings.Index "abc" "," = -1.
Proof. split; vm_compute; reflexivity. Qed.

Example ReplaceAll_each : strings.ReplaceAll ("a" ++ LF ++ LF ++ "b") LF " " = "a  b".
Proof. vm_compute. reflexivity. Qed.

Example TrimPrefix_origin :
  strings.TrimPrefix "https://www.thedailystar.net/news" origin = "/news" /\
  strings.TrimPrefix "https://example.com/news" origin = "https://example.com/news".
Proof. split; vm_compute; reflexivity. Qed.

Example Itoa_digits : Itoa 0 = "0" /\ Itoa 12 = "12" /\ Itoa 404 = "404".
Proof. repeat split; vm_compute; reflexivity. Qed.

(** A headline is normalized, then cut at its first comma. *)
Example truncateTitle_headline :
  truncateTitle
    (normalizeTitle ("Breaking:  city hall," ++ LF ++ " flooded after storm.")) =
  "Breaking: city hall".
Proof. vm_compute. reflexivity. Qed.

Example IsAbs_cases :
  IsAbs "https://www.thedailystar.net/a.jpg" = true /\
  IsAbs "/a.jpg" = false /\ IsAbs "a.jpg" = false /\ IsAbs "//cdn.example/a.jpg" = false.
Proof. repeat split; vm_compute; reflexivity. Qed.

(** ** The effect monad *)

Lemma bind_eff {A B} (m : Eff A) (k : A -> Eff B) :
  (m ≫= k) = ((k m.1).1, (m.2 ++ (k m.1).2)%list).
Proof.
  unfold mbind, Eff_bind. destruct m as [a l1]. simpl.
  destruct (k a) as [b l2]. reflexivity.
Qed.

(** ** The enrichment pass, article by article *)

Section EnrichmentFacts.

Context (w : World).

Lemma enriched_URL a : NewsArticle.URL (enriched w a) = NewsArticle.URL a.
Proof.
  unfold enriched. destruct (NewsArticle.ImageURL a =? "")%string; [|reflexivity].
  destruct (scrapeImageFromURL w (NewsArticle.URL a)).1; reflexivity.
Qed.

Lemma updateLoop_spec n : forall i (arts : list NewsArticle.t),
  (i + n)%nat = length arts ->
  updateLoop w n i arts =
  ((take i arts ++ (enriched w <$> drop i arts))%list,
   mjoin (enrichmentEvents w <$> drop i arts)).
Proof.
  induction n as [|n IH]; intros i arts Hlen; simpl.
  - rewrite drop_ge by lia. rewrite take_ge by lia. simpl.
    rewrite app_nil_r. reflexivity.
  - destruct (lookup_lt_is_Some_2 arts i ltac:(lia)) as [a Ha].
    rewrite Ha. rewrite (drop_S _ _ _ Ha). simpl.
    unfold enriched, enrichmentEvents.
    destruct (NewsArticle.ImageURL a =? "")%string eqn:Himg.
    + unfold mbind, Eff_bind.
      destruct (scrapeImageFromURL w (NewsArticle.URL a)) as [[img|err] events]; simpl.
      * rewrite IH by (rewrite length_insert; lia).
        rewrite take_S_r with (x := NewsArticle.setImageURL a img)
          by (apply list_lookup_insert_eq; eapply lookup_lt_Some; eauto).
        rewrite take_insert_ge by lia.
        rewrite drop_insert_lt by lia. simpl.
        rewrite <- !app_assoc. reflexivity.
      * rewrite IH by lia.
        rewrite (take_S_r _ _ _ Ha). simpl.
        rewrite <- !app_assoc. reflexivity.
    + rewrite IH by lia. rewrite (take_S_r _ _ _ Ha). simpl.
      rewrite <- app_assoc. reflexivity.
Qed.

Lemma updateMissingImageURLs_spec (arts : list NewsArticle.t) :
  updateMissingImageURLs w arts =
  (enriched w <$> arts, mjoin (enrichmentEvents w <$> arts)).
Proof.
  unfold updateMissingImageURLs. rewrite updateLoop_spec by lia. reflexivity.
Qed.

End EnrichmentFacts.

(** ** The callback: what it appends *)

Lemma isDuplicate_elem (arts : list NewsArticle.t) (link : string) :
  isDuplicate arts link = true <-> link ∈ NewsArticle.URL <$> arts.
Proof.
  unfold isDuplicate. rewrite existsb_exists, list_elem_of_fmap.
  split.
  - intros (a & Hin & Heq). apply String.eqb_eq in Heq.
    exists a. split; [congruence | by apply list_elem_of_In].
  - intros (a & Heq & Hin). exists a.
    split; [by apply list_elem_of_In | apply String.eqb_eq; congruence].
Qed.

(** The callback leaves the state as it is, or appends one article whose
    fields are those the element yields. *)
Lemma onHTML_cases now e st :
  onHTML now e st = st \/
  (lenSlice (articles st) < 10 /\
   titleLoop e titleSelectors "" <> "" /\
   ChildAttr e "a" "href" <> "" /\
   isCategoryLink (linkOf e) = false /\
   notNewsLink (linkOf e) = false /\
   isDuplicate (articles st) (linkOf e) = false /\
   onHTML now e st =
   {| articles :=
        (articles st ++
         [NewsArticle.mk ("dailystar_" ++ Itoa (articleID st))
            (truncateTitle (normalizeTitle (titleLoop e titleSelectors "")))
            (extractDescription e) (extractImage e) (linkOf e)
            "thedailystar" now])%list;
      articleID := articleID st + 1 |}).
Proof.
  unfold onHTML, linkOf.
  destruct (10 <=? lenSlice (articles st)) eqn:Hcap; [by left|].
  destruct (titleLoop e titleSelectors "" =? "")%string eqn:Htitle; [by left|].
  destruct (ChildAttr e "a" "href" =? "")%string eqn:Hlink; [by left|].
  destruct (isCategoryLink _) eqn:Hcat; [by left|].
  destruct (notNewsLink _) eqn:Hnews; [by left|].
  destruct (isDuplicate _ _) eqn:Hdup; [by left|].
  right. apply Z.leb_gt in Hcap.
  apply String.eqb_neq in Htitle, Hlink. done.
Qed.

Lemma onHTML_duplicate now e st :
  linkOf e ∈ NewsArticle.URL <$> articles st -> onHTML now e st = st.
Proof.
  intros Hin. apply isDuplicate_elem in Hin.
  destruct (onHTML_cases now e st) as [|(_ & _ & _ & _ & _ & Hdup & _)]; [done|].
  congruence.
Qed.

Lemma onHTML_NoDup now e st :
  NoDup (NewsArticle.URL <$> articles st) ->
  NoDup (NewsArticle.URL <$> articles (onHTML now e st)).
Proof.
  intros Hnd.
  destruct (onHTML_cases now e st) as [->|(_ & _ & _ & _ & _ & Hdup & ->)]; [done|].
  simpl. rewrite fmap_app. simpl.
  apply NoDup_app. split; [done|]. split; [|apply NoDup_singleton].
  intros x Hx Hx'. apply list_elem_of_singleton in Hx'. subst x.
  apply isDuplicate_elem in Hx. congruence.
Qed.

Lemma crawl_from_NoDup w elements : forall st,
  NoDup (NewsArticle.URL <$> articles st) ->
  NoDup (NewsArticle.URL <$>
         articles (fold_left (fun st e => onHTML (Now w (articleID st)) e st)
                             elements st)).
Proof.
  induction elements as [|e elements IH]; intros st Hst; simpl; [done|].
  apply IH. by apply onHTML_NoDup.
Qed.

Lemma enriched_URLs w (arts : list NewsArticle.t) :
  NewsArticle.URL <$> (enriched w <$> arts) = NewsArticle.URL <$> arts.
Proof.
  rewrite <- list_fmap_compose. apply list_fmap_ext.
  intros i a _. simpl. apply enriched_URL.
Qed.

(** What [fetchTheDailyStarWithColly] returns when the visit succeeds. *)
Lemma fetchTheDailyStarWithColly_Ok w url news :
  (fetchTheDailyStarWithColly w url).1 = Ok news ->
  exists elements,
    Visit w url = Visited elements /\
    news = enriched w <$> articles (crawl w elements).
Proof.
  unfold fetchTheDailyStarWithColly.
  destruct (Visit w url) as [err|elements]; [discriminate|].
  rewrite updateMissingImageURLs_spec. simpl.
  intros [= <-]. by exists elements.
Qed.

(** C1. In the result of a listing crawl no two articles have the same
    [url]: the callback scans the accepted articles for the link and
    appends nothing when it finds it, and the enrichment pass changes no
    [url]. *)
Theorem listing_urls_distinct w url news :
  (fetchTheDailyStarWithColly w url).1 = Ok news ->
  NoDup (NewsArticle.URL <$> news).
Proof.
  intros (elements & _ & ->)%fetchTheDailyStarWithColly_Ok.
  rewrite enriched_URLs. apply crawl_from_NoDup. simpl. apply NoDup_nil_2.
Qed.

Lemma listing_urls_distinct_witness : NoDup (NewsArticle.URL <$> sampleNews).
Proof.
  apply (listing_urls_distinct sampleWorld frontPageURL).
  vm_compute. reflexivity.
Defined.

(** ** Where the articles of a crawl come from *)

Lemma onHTML_builtFrom now e st a :
  a ∈ articles (onHTML now e st) -> a ∈ articles st \/ builtFrom e a.
Proof.
  destruct (onHTML_cases now e st)
    as [->|(_ & Htitle & _ & Hcat & Hnews & _ & ->)]; [by left|].
  simpl. rewrite elem_of_app, list_elem_of_singleton.
  intros [Hin| ->]; [by left|]. right. by repeat split.
Qed.

Lemma crawl_from_builtFrom w elements : forall st a,
  a ∈ articles (fold_left (fun st e => onHTML (Now w (articleID st)) e st)
                          elements st) ->
  a ∈ articles st \/ exists e, e ∈ elements /\ builtFrom e a.
Proof.
  induction elements as [|e elements IH]; intros st a Hin; simpl in *; [by left|].
  apply IH in Hin as [Hin|(e' & He' & Hb)].
  - apply onHTML_builtFrom in Hin as [Hin|Hb]; [by left|].
    right. exists e. split; [left|done].
  - right. exists e'. split; [by right|done].
Qed.

Lemma crawl_builtFrom w elements a :
  a ∈ articles (crawl w elements) -> exists e, e ∈ elements /\ builtFrom e a.
Proof.
  intros [Hin|H]%crawl_from_builtFrom; [|done].
  simpl in Hin. by apply elem_of_nil in Hin.
Qed.

(** ** The title loop *)

Lemma titleLoop_accepted e selectors : forall title0 title,
  head (filter (fun title => negb (title =? "")%string && (10 <=? len title) = true)
               ((fun selector => strings.TrimSpace (ChildText e selector))
                  <$> selectors)) = Some title ->
  titleLoop e selectors title0 = title /\ 10 <= len title.
Proof.
  induction selectors as [|selector rest IH]; intros title0 title; simpl; [done|].
  rewrite filter_cons.
  destruct (decide _) as [Hok|Hno]; simpl.
  - intros [= <-]. rewrite Hok. split; [done|].
    apply andb_true_iff in Hok as [_ Hlen]. by apply Z.leb_le.
  - apply not_true_is_false in Hno. rewrite Hno. apply IH.
Qed.

Lemma enriched_Title w a : NewsArticle.Title (enriched w a) = NewsArticle.Title a.
Proof.
  unfold enriched. destruct (NewsArticle.ImageURL a =? "")%string; [|reflexivity].
  destruct (scrapeImageFromURL w (NewsArticle.URL a)).1; reflexivity.
Qed.

Lemma enriched_Description w a :
  NewsArticle.Description (enriched w a) = NewsArticle.Description a.
Proof.
  unfold enriched. destruct (NewsArticle.ImageURL a =? "")%string; [|reflexivity].
  destruct (scrapeImageFromURL w (NewsArticle.URL a)).1; reflexivity.
Qed.

(** When no selector passes the test, the loop ends with the text of the
    last selector, whatever its length. *)
Example titleLoop_last_text :
  acceptedTitle (element [(".headline", "Sports")] []) = None /\
  titleLoop (element [(".headline", "Sports")] []) titleSelectors "" = "Sports".
Proof. split; vm_compute; reflexivity. Qed.

(** C2, as the code has it. The floor of 10 bytes is tested on the trimmed
    text of the selector, before white space is normalized and before the
    title is cut at the first comma and the first period: when a selector
    of the element passes the test, the title of the article is the first
    such text, normalized and cut, and that text (not the title) has at
    least 10 bytes. *)
Theorem title_floor_precedes_cleanup w url news a :
  (fetchTheDailyStarWithColly w url).1 = Ok news ->
  a ∈ news ->
  exists elements e,
    Visit w url = Visited elements /\ e ∈ elements /\
    NewsArticle.URL a = linkOf e /\
    forall title, acceptedTitle e = Some title ->
      10 <= len title /\
      NewsArticle.Title a = truncateTitle (normalizeTitle title).
Proof.
  intros (elements & Hvisit & ->)%fetchTheDailyStarWithColly_Ok Hin.
  apply list_elem_of_fmap in Hin as (a0 & -> & Hin).
  apply crawl_builtFrom in Hin as (e & He & Hb).
  destruct Hb as (Htitle & _ & _ & Hurl & _).
  exists elements, e.
  split; [done|]. split; [done|]. split; [by rewrite enriched_URL|].
  intros title [Heq Hlen]%(titleLoop_accepted e titleSelectors "").
  split; [done|]. by rewrite enriched_Title, Htitle, Heq.
Qed.

Lemma title_floor_precedes_cleanup_witness :
  exists elements e,
    Visit sampleWorld frontPageURL = Visited elements /\ e ∈ elements /\
    "https://www.thedailystar.net/news/bangladesh/2024/greeting" = linkOf e /\
    forall title, acceptedTitle e = Some title ->
      10 <= len title /\ "Hi" = truncateTitle (normalizeTitle title).
Proof.
  apply (title_floor_precedes_cleanup sampleWorld frontPageURL sampleNews
           (NewsArticle.mk "dailystar_1" "Hi" ""
              "https://www.thedailystar.net/img/flood.jpg"
              "https://www.thedailystar.net/news/bangladesh/2024/greeting"
              "thedailystar" 1750510801)).
  - vm_compute. reflexivity.
  - unfold sampleNews. apply list_elem_of_further, list_elem_of_here.
Defined.

(** C2, the claim as it stands, fails: the headline
    ["Hi, this is a long headline"] passes the test with its 27 bytes and
    is then cut at its comma, and the article is emitted with the title
    ["Hi"], of 2 bytes. *)
Lemma title_floor_counterexample :
  (fetchTheDailyStarWithColly sampleWorld frontPageURL).1 = Ok sampleNews /\
  acceptedTitle greetingTeaser = Some "Hi, this is a long headline" /\
  len "Hi, this is a long headline" = 27 /\
  NewsArticle.Title <$> sampleNews = ["Breaking: city hall"; "Hi"] /\
  len "Hi" = 2.
Proof. repeat split; vm_compute; reflexivity. Qed.

(** ** Image extraction in listing mode *)

Lemma extractImage_found e imageURL :
  imageLoop e imageAttrs "" = imageURL -> imageURL <> "" ->
  extractImage e = resolveImage e imageURL.
Proof.
  intros Hloop Hne%String.eqb_neq. unfold extractImage.
  rewrite Hloop, Hne. cbn [negb]. by rewrite Hne.
Qed.

(** C3, as the code has it. [src] stands first in the list of attributes:
    when the [img] of the container has a non-empty [data-srcset], the
    image is still taken from [src], [data-src] or [data-lazy-src] when
    one of them is non-empty (in that order), and from [data-srcset] only
    when all three are empty; the value taken is resolved and cut by
    [resolveImage]. *)
Theorem image_attribute_order e :
  ChildAttr e "img" "data-srcset" <> "" ->
  extractImage e =
  resolveImage e
    (if negb (ChildAttr e "img" "src" =? "")%string
     then ChildAttr e "img" "src"
     else if negb (ChildAttr e "img" "data-src" =? "")%string
     then ChildAttr e "img" "data-src"
     else if negb (ChildAttr e "img" "data-lazy-src" =? "")%string
     then ChildAttr e "img" "data-lazy-src"
     else ChildAttr e "img" "data-srcset").
Proof.
  intros Hset. apply extractImage_found.
  - apply String.eqb_neq in Hset. unfold imageAttrs. cbn [imageLoop].
    destruct (ChildAttr e "img" "src" =? "")%string; cbn [negb]; [|done].
    destruct (ChildAttr e "img" "data-src" =? "")%string; cbn [negb]; [|done].
    destruct (ChildAttr e "img" "data-lazy-src" =? "")%string; cbn [negb]; [|done].
    by rewrite Hset.
  - destruct (ChildAttr e "img" "src" =? "")%string eqn:Hsrc; cbn [negb];
      [|by apply String.eqb_neq].
    destruct (ChildAttr e "img" "data-src" =? "")%string eqn:Hdata; cbn [negb];
      [|by apply String.eqb_neq].
    destruct (ChildAttr e "img" "data-lazy-src" =? "")%string eqn:Hlazy; cbn [negb];
      [|by apply String.eqb_neq].
    done.
Qed.

Lemma image_attribute_order_witness :
  extractImage floodTeaser =
  resolveImage floodTeaser
    (if negb (ChildAttr floodTeaser "img" "src" =? "")%string
     then ChildAttr floodTeaser "img" "src"
     else if negb (ChildAttr floodTeaser "img" "data-src" =? "")%string
     then ChildAttr floodTeaser "img" "data-src"
     else if negb (ChildAttr floodTeaser "img" "data-lazy-src" =? "")%string
     then ChildAttr floodTeaser "img" "data-lazy-src"
     else ChildAttr floodTeaser "img" "data-srcset").
Proof.
  apply (image_attribute_order floodTeaser).
  vm_compute. discriminate.
Defined.

(** C3, the claim as it stands, fails: the [img] of [floodTeaser] has
    [src="/a.jpg"] and [data-srcset="/b.jpg 1x, /c.jpg 2x"], and the image
    extracted is the resolved [src], not the resolved first URL of
    [data-srcset]. *)
Lemma data_srcset_counterexample :
  ChildAttr floodTeaser "img" "src" = "/a.jpg" /\
  ChildAttr floodTeaser "img" "data-srcset" = "/b.jpg 1x, /c.jpg 2x" /\
  extractImage floodTeaser = "https://www.thedailystar.net/a.jpg" /\
  AbsoluteURL (Req floodTeaser) "/b.jpg" = "https://www.thedailystar.net/b.jpg".
Proof. repeat split; vm_compute; reflexivity. Qed.

(** ** The enrichment pass *)

Lemma enriched_with_image w a :
  NewsArticle.ImageURL a <> "" -> enriched w a = a /\ enrichmentEvents w a = [].
Proof.
  intros H%String.eqb_neq. unfold enriched, enrichmentEvents. by rewrite H.
Qed.

Lemma enriched_without_image w a :
  NewsArticle.ImageURL a = "" ->
  enriched w a =
  match (scrapeImageFromURL w (NewsArticle.URL a)).1 with
  | Ok imageURL => NewsArticle.setImageURL a imageURL
  | Err _ => a
  end /\
  forall ev, ev ∈ (scrapeImageFromURL w (NewsArticle.URL a)).2 ->
             ev ∈ enrichmentEvents w a.
Proof.
  intros H. unfold enriched, enrichmentEvents. rewrite H. simpl.
  split; [done|]. intros ev Hev.
  destruct (scrapeImageFromURL w (NewsArticle.URL a)) as [[img|err] events];
    simpl in *; apply elem_of_app; by left.
Qed.

(** A GET request is the first thing [scrapeImageFromURL] does, for the
    URL it is given, if it does anything. *)
Lemma scrapeImageFromURL_events w url ev :
  ev ∈ (scrapeImageFromURL w url).2 -> ev = EvGet url.
Proof.
  unfold scrapeImageFromURL.
  destruct (Get w url) as [err|err|code [doc|err]]; simpl.
  - by intros ?%elem_of_nil.
  - by intros ->%list_elem_of_singleton.
  - unfold mbind, Eff_bind. simpl.
    destruct (negb (code =? StatusOK)); simpl; by intros ->%list_elem_of_singleton.
  - unfold mbind, Eff_bind. simpl.
    destruct (negb (code =? StatusOK)); simpl; by intros ->%list_elem_of_singleton.
Qed.

Lemma enrichmentEvents_get w a url :
  EvGet url ∈ enrichmentEvents w a ->
  NewsArticle.URL a = url /\ NewsArticle.ImageURL a = "".
Proof.
  unfold enrichmentEvents.
  destruct (NewsArticle.ImageURL a =? "")%string eqn:Himg;
    [|by intros ?%elem_of_nil].
  apply String.eqb_eq in Himg. intros Hin. split; [|done].
  destruct (scrapeImageFromURL w (NewsArticle.URL a)) as [r events] eqn:Hs.
  assert (EvGet url ∈ events) as Hev.
  { destruct r; apply elem_of_app in Hin as [|Hin]; try done;
      apply list_elem_of_singleton in Hin; discriminate. }
  replace events with (scrapeImageFromURL w (NewsArticle.URL a)).2 in Hev
    by (by rewrite Hs).
  apply scrapeImageFromURL_events in Hev. congruence.
Qed.

(** X22. [updateMissingImageURLs] looks at [imageURL] alone. An article whose
    [imageURL] is empty has its own page requested, and its [imageURL]
    becomes the image found there, or stays empty when the request or the
    search fails; an article whose [imageURL] is not empty stays as it is;
    this pass changes no [description], and requests a page only for an
    article without an image. *)
Theorem enrichment_fills_images_only w arts arts' events :
  updateMissingImageURLs w arts = (arts', events) ->
  length arts' = length arts /\
  (forall i a, arts !! i = Some a ->
     exists a',
       arts' !! i = Some a' /\
       NewsArticle.Description a' = NewsArticle.Description a /\
       (NewsArticle.ImageURL a <> "" -> a' = a) /\
       (NewsArticle.ImageURL a = "" ->
        (forall ev, ev ∈ (scrapeImageFromURL w (NewsArticle.URL a)).2 ->
                    ev ∈ events) /\
        a' = match (scrapeImageFromURL w (NewsArticle.URL a)).1 with
             | Ok imageURL => NewsArticle.setImageURL a imageURL
             | Err _ => a
             end)) /\
  (forall url, EvGet url ∈ events ->
     exists a, a ∈ arts /\ NewsArticle.URL a = url /\ NewsArticle.ImageURL a = "").
Proof.
  rewrite updateMissingImageURLs_spec. intros [= <- <-].
  split; [by rewrite length_fmap|]. split.
  - intros i a Ha. exists (enriched w a).
    split; [by rewrite list_lookup_fmap, Ha|].
    split; [apply enriched_Description|].
    split; [by intros [-> _]%(enriched_with_image w)|].
    intros [Heq Hev]%(enriched_without_image w). split; [|done].
    intros ev Hin. apply list_elem_of_join.
    exists (enrichmentEvents w a). split; [by apply Hev|].
    apply list_elem_of_fmap. exists a. split; [done|].
    by eapply list_elem_of_lookup_2.
  - intros url (l & Hin & (a & -> & Ha)%list_elem_of_fmap)%list_elem_of_join.
    exists a. split; [done|]. by apply (enrichmentEvents_get w).
Qed.

Lemma enrichment_fills_images_only_witness :
  length enrichedPair = length [withImage; bare] /\
  (forall i a, [withImage; bare] !! i = Some a ->
     exists a',
       enrichedPair !! i = Some a' /\
       NewsArticle.Description a' = NewsArticle.Description a /\
       (NewsArticle.ImageURL a <> "" -> a' = a) /\
       (NewsArticle.ImageURL a = "" ->
        (forall ev, ev ∈ (scrapeImageFromURL sampleWorld (NewsArticle.URL a)).2 ->
                    ev ∈ pairEvents) /\
        a' = match (scrapeImageFromURL sampleWorld (NewsArticle.URL a)).1 with
             | Ok imageURL => NewsArticle.setImageURL a imageURL
             | Err _ => a
             end)) /\
  (forall url, EvGet url ∈ pairEvents ->
     exists a, a ∈ [withImage; bare] /\ NewsArticle.URL a = url /\
               NewsArticle.ImageURL a = "").
Proof.
  apply (enrichment_fills_images_only sampleWorld [withImage; bare]
           enrichedPair pairEvents).
  vm_compute. reflexivity.
Defined.

(** C4, the defect. The claim holds of the enrichment pass of package
    [handler], [updateArticleDetails], and not of the pass of this
    package, [updateMissingImageURLs]. Take the articles [withImage] (an
    image, no description) and [bare] (neither), and story pages that
    carry an Open Graph description, as in [sampleWorld].
    [updateMissingImageURLs] requests the page of [bare] only, gives
    [bare] the image of the page, and leaves both descriptions empty: so
    the listing [fetchTheDailyStarWithColly] returns there has no
    description. [updateArticleDetails] requests both pages, gives both
    articles the description of the page, gives [bare] the image of the
    page and keeps the image of [withImage]: the listing
    [fetchTheDailyStarWithColly] of package [handler] returns there has
    the description of the story page in both articles. *)
Theorem description_left_empty :
  NewsArticle.Description withImage = "" /\
  NewsArticle.Description bare = "" /\
  Get sampleWorld (NewsArticle.URL withImage) = Response 200 (inl storyPage) /\
  Get sampleWorld (NewsArticle.URL bare) = Response 200 (inl storyPage) /\
  Handler.findDescription storyPage =
  "Flood water entered city hall on Monday after a night of heavy rain." /\
  updateMissingImageURLs sampleWorld [withImage; bare] =
  ([withImage;
    NewsArticle.mk "dailystar_1" "Hi" ""
      "https://www.thedailystar.net/img/flood.jpg"
      "https://www.thedailystar.net/news/bangladesh/2024/greeting"
      "thedailystar" 1750510801],
   [EvGet "https://www.thedailystar.net/news/bangladesh/2024/greeting";
    EvSleep 1]) /\
  Handler.updateArticleDetails sampleWorld [withImage; bare] =
  ([NewsArticle.mk "dailystar_0" "Breaking: city hall"
      "Flood water entered city hall on Monday after a night of heavy rain."
      "https://www.thedailystar.net/a.jpg"
      "https://www.thedailystar.net/news/bangladesh/2024/flood-story"
      "thedailystar" 1750510800;
    NewsArticle.mk "dailystar_1" "Hi"
      "Flood water entered city hall on Monday after a night of heavy rain."
      "https://www.thedailystar.net/img/flood.jpg"
      "https://www.thedailystar.net/news/bangladesh/2024/greeting"
      "thedailystar" 1750510801],
   [EvGet "https://www.thedailystar.net/news/bangladesh/2024/flood-story";
    EvSleep 1;
    EvGet "https://www.thedailystar.net/news/bangladesh/2024/greeting";
    EvSleep 1]) /\
  (fetchTheDailyStarWithColly sampleWorld frontPageURL).1 = Ok sampleNews /\
  NewsArticle.Description <$> sampleNews = [""; ""] /\
  (Handler.fetchTheDailyStarWithColly sampleWorld frontPageURL).1 =
  Ok ((fun a =>
         Handler.setDescription a
           "Flood water entered city hall on Monday after a night of heavy rain.")
        <$> sampleNews).
Proof. split_and!; vm_compute; reflexivity. Qed.

(** C5. On a list in which every article has an image, the enrichment
    pass requests nothing and returns the list as it is, whatever the
    sites would answer; hence a second pass after the first changes
    nothing either. (The descriptions play no part.) *)
Theorem enrichment_idempotent_when_populated w w' (arts : list NewsArticle.t) :
  Forall (fun a => NewsArticle.ImageURL a <> "") arts ->
  updateMissingImageURLs w arts = (arts, []) /\
  (updateMissingImageURLs w arts ≫= updateMissingImageURLs w') =
  updateMissingImageURLs w arts.
Proof.
  intros Hall.
  assert (forall v, updateMissingImageURLs v arts = (arts, [])) as Hid.
  { intros v. rewrite updateMissingImageURLs_spec. f_equal.
    - rewrite <- (list_fmap_id arts) at 2. apply list_fmap_ext.
      intros i a Ha. simpl.
      apply (enriched_with_image v), (Forall_lookup_1 _ _ _ _ Hall Ha).
    - apply join_nil_2, Forall_fmap, (Forall_impl _ _ _ Hall).
      intros a Ha. simpl. by apply enriched_with_image. }
  split; [apply Hid|].
  rewrite (Hid w). unfold mbind, Eff_bind. by rewrite (Hid w').
Qed.

Lemma enrichment_idempotent_when_populated_witness :
  updateMissingImageURLs sampleWorld sampleNews = (sampleNews, []) /\
  (updateMissingImageURLs sampleWorld sampleNews
     ≫= updateMissingImageURLs offlineWorld) =
  updateMissingImageURLs sampleWorld sampleNews.
Proof.
  apply (enrichment_idempotent_when_populated sampleWorld offlineWorld sampleNews).
  unfold sampleNews. repeat constructor; simpl; discriminate.
Defined.

(** ** Aggregation *)

Lemma collect_from (received : list (list NewsArticle.t)) : forall allArticles,
  fold_left (fun allArticles news => (allArticles ++ news)%list) received allArticles
  = (allArticles ++ mjoin received)%list.
Proof.
  induction received as [|news received IH]; intros allArticles; simpl.
  - by rewrite app_nil_r.
  - by rewrite IH, app_assoc.
Qed.

Lemma collect_join received : collect received = mjoin received.
Proof. unfold collect. by rewrite collect_from. Qed.

(** A goroutine sends the articles of its source, or the empty slice when
    the scrape fails. *)
Lemma worker_sends w entry :
  (worker w entry.1 entry.2).1 = default [] (scraped w entry).
Proof.
  unfold worker, scraped, mbind, Eff_bind.
  destruct (fetchNewsFromSource w entry.1 (Source.URL entry.2)) as [[news|err] events];
    reflexivity.
Qed.

Lemma join_sent w (arrival : list (string * Source.t)) :
  mjoin ((fun entry => (worker w entry.1 entry.2).1) <$> arrival) =
  mjoin (omap (scraped w) arrival).
Proof.
  induction arrival as [|entry arrival IH]; csimpl; [done|].
  rewrite IH, (worker_sends w entry).
  destruct (scraped w entry); reflexivity.
Qed.

Lemma respondAll_scraped w arrival :
  respondAll w arrival = allNewsResponse (mjoin (omap (scraped w) arrival)).
Proof.
  unfold respondAll, allNewsResponse. by rewrite collect_join, join_sent.
Qed.




(** With the two active sources of [twoSources], of which ["cnn"] has no
    scraper and fails, the response holds exactly the articles of
    ["thedailystar"], in whatever order the two goroutines send. *)
Example aggregation_of_two_sources resp :
  GetAllNews sampleWorld twoSources resp -> resp = allNewsResponse sampleNews.
Proof.
  intros [arrival Harrival]. rewrite respondAll_scraped. f_equal.
  assert (omap (scraped sampleWorld) arrival ≡ₚ [sampleNews]) as Hperm.
  { rewrite Harrival. vm_compute. reflexivity. }
  apply Permutation_singleton_r in Hperm. rewrite Hperm. reflexivity.
Qed.

(** ** Requests for one source *)

Lemma fetchNewsFromSource_Err w sourceName url :
  (exists err, (fetchNewsFromSource w sourceName url).1 = Err err) <->
  sourceName <> "thedailystar" \/ exists err, Visit w url = VisitError err.
Proof.
  unfold fetchNewsFromSource, fetchTheDailyStarWithColly.
  destruct (sourceName =? "thedailystar")%string eqn:Hname.
  - apply String.eqb_eq in Hname.
    destruct (Visit w url) as [err|elements]; simpl.
    + split; [intros _; right; eauto | intros _; eauto].
    + unfold mbind, Eff_bind.
      destruct (updateMissingImageURLs w _) as [arts events]. simpl.
      split; [intros [? [=]] | intros [?|[? [=]]]; done].
  - apply String.eqb_neq in Hname. simpl. split; eauto.
Qed.

Lemma GetNewsBySource_cases w ns sourceName :
  let resp := (GetNewsBySource w ns sourceName).1 in
  match sources ns !! sourceName with
  | None =>
    Status resp = StatusNotFound /\ errorKind resp = Some "source_not_found"
  | Some source =>
    if Source.Active source then
      match (fetchNewsFromSource w sourceName (Source.URL source)).1 with
      | Err _ =>
        Status resp = StatusInternalServerError /\
        errorKind resp = Some "fetch_error"
      | Ok news =>
        Status resp = StatusOK /\
        Payload resp =
        NewsBody (NewsResponse.mk true news (lenSlice news) sourceName)
      end
    else
      Status resp = StatusBadRequest /\ errorKind resp = Some "source_inactive"
  end.
Proof.
  unfold GetNewsBySource. simpl.
  destruct (sources ns !! sourceName) as [source|]; [|done].
  destruct (Source.Active source); simpl; [|done].
  unfold mbind, Eff_bind.
  destruct (fetchNewsFromSource w sourceName (Source.URL source)) as [[news|err] events];
    done.
Qed.

Lemma fetchNewsFromSource_Ok w sourceName url news :
  (fetchNewsFromSource w sourceName url).1 = Ok news ->
  sourceName = "thedailystar" /\ exists elements, Visit w url = Visited elements.
Proof.
  intros Hok.
  destruct (decide (sourceName = "thedailystar")) as [Hname|Hname].
  - split; [done|]. destruct (Visit w url) as [err|elements] eqn:Hvisit; [|eauto].
    assert (exists err, (fetchNewsFromSource w sourceName url).1 = Err err)
      as [err' He] by (apply fetchNewsFromSource_Err; eauto).
    congruence.
  - assert (exists err, (fetchNewsFromSource w sourceName url).1 = Err err)
      as [err' He] by (apply fetchNewsFromSource_Err; eauto).
    congruence.
Qed.

(** C7, as the code has it. A request for one source fails in three ways:
    [source_not_found] (404) for a name the registry does not know,
    [source_inactive] (400) for an inactive source, and [fetch_error]
    (500) when the scrape of the source returns an error, which is when
    its entry page cannot be visited or the source has no scraper. It
    succeeds (200) whenever the entry page of an active ["thedailystar"]
    is visited, whatever becomes of the requests of the enrichment
    pass. *)
Theorem by_source_failures w ns sourceName :
  let resp := (GetNewsBySource w ns sourceName).1 in
  (Status resp = StatusNotFound /\ errorKind resp = Some "source_not_found" <->
   sources ns !! sourceName = None) /\
  (Status resp = StatusBadRequest /\ errorKind resp = Some "source_inactive" <->
   exists source,
     sources ns !! sourceName = Some source /\ Source.Active source = false) /\
  (Status resp = StatusInternalServerError /\ errorKind resp = Some "fetch_error" <->
   exists source,
     sources ns !! sourceName = Some source /\ Source.Active source = true /\
     (sourceName <> "thedailystar" \/
      exists err, Visit w (Source.URL source) = VisitError err)) /\
  (Status resp = StatusOK /\ errorKind resp = None <->
   exists source elements,
     sources ns !! sourceName = Some source /\ Source.Active source = true /\
     sourceName = "thedailystar" /\
     Visit w (Source.URL source) = Visited elements).
Proof.
  intros resp. pose proof (GetNewsBySource_cases w ns sourceName) as Hcases.
  cbv zeta in Hcases. fold resp in Hcases. clearbody resp.
  unfold StatusNotFound, StatusBadRequest, StatusInternalServerError, StatusOK in *.
  destruct (sources ns !! sourceName) as [source|] eqn:Hlookup.
  - destruct (Source.Active source) eqn:Hactive.
    + destruct (fetchNewsFromSource w sourceName (Source.URL source)).1
        as [news|err] eqn:Hfetch.
      * destruct Hcases as [Hstatus Hpayload].
        assert (errorKind resp = None) as Hkind
          by (unfold errorKind; by rewrite Hpayload).
        apply fetchNewsFromSource_Ok in Hfetch as [Hname [elements Hvisit]].
        rewrite Hstatus, Hkind. split_and!.
        -- split; [wrong_response | intros [=]].
        -- split; [wrong_response | intros (s & [= <-] & Hs); congruence].
        -- split; [wrong_response
                  | intros (s & [= <-] & _ & [Hne|[err Herr]]); congruence].
        -- split; [intros _; by exists source, elements | done].
      * destruct Hcases as [Hstatus Hkind]. rewrite Hstatus, Hkind.
        assert (sourceName <> "thedailystar" \/
                exists err, Visit w (Source.URL source) = VisitError err) as Hwhy
          by (apply fetchNewsFromSource_Err; eauto).
        split_and!.
        -- split; [wrong_response | intros [=]].
        -- split; [wrong_response | intros (s & [= <-] & Hs); congruence].
        -- split; [intros _; by exists source | done].
        -- split; [wrong_response|].
           intros (s & elements & [= <-] & _ & Hname & Hvisit).
           destruct Hwhy as [Hne|[err' Herr]]; congruence.
    + destruct Hcases as [Hstatus Hkind]. rewrite Hstatus, Hkind. split_and!.
      * split; [wrong_response | intros [=]].
      * split; [intros _; by exists source | done].
      * split; [wrong_response | intros (s & [= <-] & Hs & _); congruence].
      * split; [wrong_response
               | intros (s & elements & [= <-] & Hs & _); congruence].
  - destruct Hcases as [Hstatus Hkind]. rewrite Hstatus, Hkind. split_and!.
    + done.
    + split; [wrong_response | intros (s & [=] & _)].
    + split; [wrong_response | intros (s & [=] & _)].
    + split; [wrong_response | intros (s & elements & [=] & _)].
Qed.

(** C7, the claim as it stands, fails: when the entry page of
    ["thedailystar"] cannot be visited, the request for that source is
    answered with status 500 and the error [fetch_error], not with fewer
    results. *)
Lemma fetch_error_counterexample :
  (GetNewsBySource offlineWorld NewNewsService "thedailystar").1 =
  {| Status := 500;
     Payload :=
       ErrorBody (ErrorResponse.mk false "fetch_error"
         "Failed to fetch news: failed to visit: connection refused") |}.
Proof. vm_compute. reflexivity. Qed.

(** C10. In every success response, of [GetAllNews] and of
    [GetNewsBySource], [count] is the length of [data] (and [success] is
    true). *)
Theorem count_is_length w ns resp r :
  GetAllNews w ns resp \/
  (exists sourceName, resp = (GetNewsBySource w ns sourceName).1) ->
  Payload resp = NewsBody r ->
  NewsResponse.Success r = true /\
  NewsResponse.Count r = lenSlice (NewsResponse.Data r).
Proof.
  intros [[arrival _]|[sourceName ->]].
  - unfold respondAll. simpl. by intros [= <-].
  - pose proof (GetNewsBySource_cases w ns sourceName) as Hcases.
    cbv zeta in Hcases. unfold errorKind in Hcases.
    destruct (sources ns !! sourceName) as [source|].
    + destruct (Source.Active source).
      * destruct (fetchNewsFromSource w sourceName (Source.URL source)).1.
        -- destruct Hcases as [_ ->]. by intros [= <-].
        -- destruct Hcases as [_ Hkind]. intros Hp. rewrite Hp in Hkind. done.
      * destruct Hcases as [_ Hkind]. intros Hp. rewrite Hp in Hkind. done.
    + destruct Hcases as [_ Hkind]. intros Hp. rewrite Hp in Hkind. done.
Qed.

Lemma count_is_length_witness :
  NewsResponse.Success (NewsResponse.mk true sampleNews 2 "thedailystar") = true /\
  NewsResponse.Count (NewsResponse.mk true sampleNews 2 "thedailystar") =
  lenSlice (NewsResponse.Data (NewsResponse.mk true sampleNews 2 "thedailystar")).
Proof.
  apply (count_is_length sampleWorld NewNewsService
           (GetNewsBySource sampleWorld NewNewsService "thedailystar").1).
  - right. exists "thedailystar". reflexivity.
  - vm_compute. reflexivity.
Defined.

(** ** Images found by the enrichment pass *)

Lemma eachAttr_raw attr nodes : forall imageURL0 imageURL,
  eachAttr attr nodes imageURL0 = imageURL ->
  imageURL = imageURL0 \/ exists s, s ∈ nodes /\ Attr s attr = Some imageURL.
Proof.
  unfold eachAttr.
  induction nodes as [|s nodes IH]; intros imageURL0 imageURL; simpl; [by left|].
  intros [->|(s' & Hin & Hattr)]%IH.
  - destruct (Attr s attr) as [src|] eqn:Hattr; [|by left].
    destruct (imageURL0 =? "")%string; [|by left].
    right. exists s. split; [left|done].
  - right. exists s'. split; [by right|done].
Qed.

(** The image [findImage] returns is the value of an attribute of the
    page as it stands there: nothing resolves it. *)
Lemma findImage_raw url doc imageURL :
  findImage url doc = Ok imageURL ->
  exists selector attr s,
    s ∈ Find doc selector /\ Attr s attr = Some imageURL.
Proof.
  unfold findImage.
  repeat match goal with
  | |- context [eachAttr ?attr (Find doc ?sel) ?img0] =>
    let img := fresh "img" in
    let Himg := fresh "Himg" in
    destruct (eachAttr attr (Find doc sel) img0) as [|c img] eqn:Himg;
      cbn [negb String.eqb];
      [| intros [= <-]; apply eachAttr_raw in Himg as [[=]|(s & Hs & Hattr)];
         eauto 10 ]
  end.
  discriminate.
Qed.

(** The listing pass, for its part, resolves every image it finds. *)
Lemma extractImage_resolved e :
  extractImage e = "" \/
  exists imageURL, imageURL <> "" /\ extractImage e = resolveImage e imageURL.
Proof.
  unfold extractImage.
  destruct (imageLoop e imageAttrs "" =? "")%string eqn:Hloop.
  - destruct (ChildAttr e "picture source" "srcset" =? "")%string eqn:Hsource;
      cbn [negb]; [left; by apply String.eqb_eq|].
    right. eexists. split; [by apply String.eqb_neq|done].
  - rewrite Hloop. cbn [negb].
    right. eexists. split; [by apply String.eqb_neq|done].
Qed.

(** C9, the defect. The greeting teaser has no image, so the enrichment
    pass requests its story page, whose only image is
    [<img src="/sites/default/files/flood.jpg">] in the article body: the
    article is stored with that path as its [imageURL], which is not an
    absolute URL. The listing pass resolves what it finds
    ([resolveImage]); [scrapeImageFromURL] returns the attribute as it
    stands. *)
Theorem enrichment_image_unresolved :
  (fetchTheDailyStarWithColly bodyImageWorld frontPageURL).1 =
  Ok [NewsArticle.mk "dailystar_0" "Hi" "" "/sites/default/files/flood.jpg"
        "https://www.thedailystar.net/news/bangladesh/2024/greeting"
        "thedailystar" 1750510800] /\
  IsAbs "/sites/default/files/flood.jpg" = false /\
  resolveImage greetingTeaser "/sites/default/files/flood.jpg" =
  "https://www.thedailystar.net/sites/default/files/flood.jpg".
Proof. repeat split; vm_compute; reflexivity. Qed.

(** ** Link filtering *)

Lemma substring_all s : substring 0 (String.length s) s = s.
Proof. induction s as [|c s IH]; simpl; [done|]. by rewrite IH. Qed.

Lemma HasPrefix_app prefix : forall s,
  strings.HasPrefix s prefix = true ->
  s = prefix ++ strings.sliceFrom s (String.length prefix).
Proof.
  unfold strings.sliceFrom.
  induction prefix as [|p prefix IH]; intros s; simpl.
  - intros _. by rewrite Nat.sub_0_r, substring_all.
  - destruct s as [|c s]; [done|]. simpl.
    intros [Hc Hs]%andb_true_iff. apply Ascii.eqb_eq in Hc. subst c.
    cbv [String.append]. fold String.append. f_equal. by apply IH.
Qed.

Lemma indexAt_shift substr : forall s i,
  0 <= i -> (0 <=? strings.indexAt i s substr) = (0 <=? strings.indexAt 0 s substr).
Proof.
  induction s as [|c s IH]; intros i Hi; cbn [strings.indexAt].
  - destruct (strings.HasPrefix "" substr); [|done].
    by rewrite (proj2 (Z.leb_le 0 i) Hi).
  - destruct (strings.HasPrefix (String c s) substr).
    + by rewrite (proj2 (Z.leb_le 0 i) Hi).
    + rewrite (IH (i + 1)) by lia. by rewrite (IH (0 + 1)) by lia.
Qed.

Lemma Contains_cons c s substr :
  strings.Contains (String c s) substr =
  strings.HasPrefix (String c s) substr || strings.Contains s substr.
Proof.
  unfold strings.Contains, strings.Index. cbn [strings.indexAt].
  destruct (strings.HasPrefix (String c s) substr); [done|].
  by rewrite indexAt_shift by lia.
Qed.

(** None of the section keywords begins inside the origin: a link that
    starts with the origin contains a keyword exactly when its path
    does. *)
Lemma Contains_origin path keyword :
  keyword ∈ sectionKeywords ->
  strings.Contains (origin ++ path) keyword = strings.Contains path keyword.
Proof.
  unfold sectionKeywords. rewrite !elem_of_cons, elem_of_nil.
  intros [->|[->|[->|[->|[->|[->|[]]]]]]];
    cbv [origin String.append];
    repeat (rewrite Contains_cons; cbn [strings.HasPrefix Ascii.eqb Bool.eqb andb orb]);
    reflexivity.
Qed.

Lemma Contains_TrimPrefix link keyword :
  keyword ∈ sectionKeywords ->
  strings.Contains link keyword =
  strings.Contains (strings.TrimPrefix link origin) keyword.
Proof.
  intros Hkw. unfold strings.TrimPrefix.
  destruct (strings.HasPrefix link origin) eqn:Hprefix; [|done].
  apply HasPrefix_app in Hprefix. rewrite Hprefix at 1.
  by apply Contains_origin.
Qed.

Lemma notNewsLink_true link :
  notNewsLink link = true <->
  forall keyword, keyword ∈ sectionKeywords ->
                  strings.Contains (strings.TrimPrefix link origin) keyword = false.
Proof.
  unfold notNewsLink. rewrite !andb_true_iff, !negb_true_iff. split.
  - intros (((((H1 & H2) & H3) & H4) & H5) & H6) keyword Hkw.
    rewrite <- (Contains_TrimPrefix link keyword Hkw).
    unfold sectionKeywords in Hkw. rewrite !elem_of_cons, elem_of_nil in Hkw.
    destruct Hkw as [->|[->|[->|[->|[->|[->|[]]]]]]]; done.
  - intros Hall.
    assert (forall keyword, keyword ∈ sectionKeywords ->
                            strings.Contains link keyword = false) as Hlink.
    { intros keyword Hkw. rewrite (Contains_TrimPrefix link keyword Hkw). auto. }
    unfold sectionKeywords in Hlink.
    repeat split; apply Hlink; set_solver.
Qed.

Lemma isCategoryLink_true link :
  isCategoryLink link = true <->
  let pathSegments := strings.Split (strings.TrimPrefix link origin) "/" in
  lenSlice pathSegments <= 3 \/ last pathSegments = Some "".
Proof.
  unfold isCategoryLink. cbv zeta.
  set (pathSegments := strings.Split (strings.TrimPrefix link origin) "/").
  rewrite orb_true_iff, Z.leb_le, last_lookup.
  replace (Z.to_nat (lenSlice pathSegments - 1)) with (Nat.pred (length pathSegments))
    by (unfold lenSlice; lia).
  destruct (pathSegments !! Nat.pred (length pathSegments)) as [seg|].
  - rewrite String.eqb_eq. split; (intros [?|?]; [by left|right; congruence]).
  - split; (intros [?|?]; [by left|done]).
Qed.

Lemma onHTML_rejects now e st :
  isCategoryLink (linkOf e) = true \/ notNewsLink (linkOf e) = true ->
  onHTML now e st = st.
Proof.
  intros Hrej.
  destruct (onHTML_cases now e st) as [|(_ & _ & _ & Hcat & Hnews & _)]; [done|].
  destruct Hrej; congruence.
Qed.

Lemma onHTML_accepts now e st :
  lenSlice (articles st) < 10 ->
  titleLoop e titleSelectors "" <> "" ->
  ChildAttr e "a" "href" <> "" ->
  isCategoryLink (linkOf e) = false ->
  notNewsLink (linkOf e) = false ->
  linkOf e ∉ NewsArticle.URL <$> articles st ->
  exists a,
    articles (onHTML now e st) = (articles st ++ [a])%list /\
    NewsArticle.URL a = linkOf e.
Proof.
  intros Hcap%Z.leb_gt Htitle%String.eqb_neq Hhref%String.eqb_neq Hcat Hnews Hdup.
  assert (isDuplicate (articles st) (linkOf e) = false) as Hdup'.
  { apply not_true_is_false. by rewrite isDuplicate_elem. }
  unfold onHTML. fold (linkOf e).
  rewrite Hcap, Htitle, Hhref, Hcat, Hnews, Hdup'. eexists. split; reflexivity.
Qed.

(** C8. A candidate link is rejected when its path (the link without the
    origin [https://www.thedailystar.net]) splits on [/] into 3 segments
    or fewer, or into segments the last of which is empty, and when the
    path contains none of the section keywords. So the paths [/news] and
    [/about] are rejected ([/about] by both tests), and
    [/news/bangladesh/2024/flood-story] is accepted: its teaser adds an
    article with that link whenever the cap is not reached and the link
    is new. *)
Theorem link_filter :
  (forall now e st,
     let path := strings.TrimPrefix (linkOf e) origin in
     let pathSegments := strings.Split path "/" in
     lenSlice pathSegments <= 3 \/ last pathSegments = Some "" \/
     (forall keyword, keyword ∈ sectionKeywords ->
                      strings.Contains path keyword = false) ->
     onHTML now e st = st) /\
  (linkOf (teaserTo "/news") = origin ++ "/news" /\
   forall now st, onHTML now (teaserTo "/news") st = st) /\
  (linkOf (teaserTo "/about") = origin ++ "/about" /\
   isCategoryLink (origin ++ "/about") = true /\
   notNewsLink (origin ++ "/about") = true /\
   forall now st, onHTML now (teaserTo "/about") st = st) /\
  (linkOf (teaserTo "/news/bangladesh/2024/flood-story") =
   origin ++ "/news/bangladesh/2024/flood-story" /\
   forall now st,
     lenSlice (articles st) < 10 ->
     origin ++ "/news/bangladesh/2024/flood-story" ∉ NewsArticle.URL <$> articles st ->
     exists a,
       articles (onHTML now (teaserTo "/news/bangladesh/2024/flood-story") st) =
       (articles st ++ [a])%list /\
       NewsArticle.URL a = origin ++ "/news/bangladesh/2024/flood-story").
Proof.
  split_and!.
  - intros now e st path pathSegments Hrej. apply onHTML_rejects.
    destruct Hrej as [Hlen|[Hlast|Hkw]].
    + left. apply isCategoryLink_true. by left.
    + left. apply isCategoryLink_true. by right.
    + right. by apply notNewsLink_true.
  - reflexivity.
  - intros now st. apply onHTML_rejects. left. vm_compute. reflexivity.
  - reflexivity.
  - vm_compute. reflexivity.
  - vm_compute. reflexivity.
  - intros now st. apply onHTML_rejects. left. vm_compute. reflexivity.
  - reflexivity.
  - intros now st Hcap Hnew.
    apply (onHTML_accepts now (teaserTo "/news/bangladesh/2024/flood-story") st);
      try done; try (vm_compute; congruence).
Qed.

(** * Further properties *)

(** ** The crawl: cap, numbering, order *)

Lemma onHTML_appends now e st :
  onHTML now e st = st \/
  (lenSlice (articles st) < 10 /\
   exists a,
     builtFrom e a /\
     NewsArticle.ID a = "dailystar_" ++ Itoa (articleID st) /\
     NewsArticle.PublishedAt a = now /\
     onHTML now e st =
     {| articles := (articles st ++ [a])%list; articleID := articleID st + 1 |}).
Proof.
  destruct (onHTML_cases now e st)
    as [?|(Hcap & Htitle & _ & Hcat & Hnews & _ & Heq)]; [by left|].
  right. split; [done|]. eexists. split; [|split; [|split; [|exact Heq]]];
    by repeat split.
Qed.

Lemma onHTML_invariant w e st :
  crawlInvariant w st -> crawlInvariant w (onHTML (Now w (articleID st)) e st).
Proof.
  intros (Hcap & Hid & Hnum).
  destruct (onHTML_appends (Now w (articleID st)) e st)
    as [->|(Hlt & a & _ & Ha & Hat & ->)]; [done|].
  unfold crawlInvariant, lenSlice in *. simpl. rewrite length_app. simpl.
  split; [lia|]. split; [lia|].
  intros i b Hb. apply lookup_app_Some in Hb as [Hb|[Hge Hb]]; [by apply Hnum|].
  apply list_lookup_singleton_Some in Hb as [Hi <-].
  assert (Z.of_nat i = articleID st) as -> by lia. done.
Qed.

Lemma crawl_from_invariant w elements : forall st,
  crawlInvariant w st ->
  crawlInvariant w (fold_left (fun st e => onHTML (Now w (articleID st)) e st)
                              elements st).
Proof.
  induction elements as [|e elements IH]; intros st Hst; simpl; [done|].
  by apply IH, onHTML_invariant.
Qed.

Lemma crawl_invariant w elements : crawlInvariant w (crawl w elements).
Proof.
  apply crawl_from_invariant. unfold crawlInvariant, lenSlice. simpl.
  split; [lia|]. split; [done|]. intros i a Hia. by rewrite lookup_nil in Hia.
Qed.

Lemma enriched_ID w a : NewsArticle.ID (enriched w a) = NewsArticle.ID a.
Proof.
  unfold enriched. destruct (NewsArticle.ImageURL a =? "")%string; [|reflexivity].
  destruct (scrapeImageFromURL w (NewsArticle.URL a)).1; reflexivity.
Qed.

Lemma enriched_PublishedAt w a :
  NewsArticle.PublishedAt (enriched w a) = NewsArticle.PublishedAt a.
Proof.
  unfold enriched. destruct (NewsArticle.ImageURL a =? "")%string; [|reflexivity].
  destruct (scrapeImageFromURL w (NewsArticle.URL a)).1; reflexivity.
Qed.

Lemma enriched_Source w a :
  NewsArticle.Source (enriched w a) = NewsArticle.Source a.
Proof.
  unfold enriched. destruct (NewsArticle.ImageURL a =? "")%string; [|reflexivity].
  destruct (scrapeImageFromURL w (NewsArticle.URL a)).1; reflexivity.
Qed.

(** X1. A listing crawl returns at most 10 articles, however many
    containers the page has. *)
Theorem listing_cap w url news :
  (fetchTheDailyStarWithColly w url).1 = Ok news -> lenSlice news <= 10.
Proof.
  intros (elements & _ & ->)%fetchTheDailyStarWithColly_Ok.
  unfold lenSlice. rewrite length_fmap.
  apply (crawl_invariant w elements).
Qed.

Lemma listing_cap_witness :
  Visit crowdedWorld frontPageURL = Visited twelveTeasers /\
  length twelveTeasers = 12%nat /\
  (fetchTheDailyStarWithColly crowdedWorld frontPageURL).1 = Ok crowdedNews /\
  lenSlice crowdedNews = 10 /\
  lenSlice crowdedNews <= 10.
Proof.
  split_and!; [reflexivity|reflexivity|vm_compute; reflexivity|reflexivity|].
  apply (listing_cap crowdedWorld frontPageURL). vm_compute. reflexivity.
Defined.

Lemma fetched_numbering w url news i a :
  (fetchTheDailyStarWithColly w url).1 = Ok news ->
  news !! i = Some a ->
  NewsArticle.ID a = "dailystar_" ++ Itoa (Z.of_nat i) /\
  NewsArticle.PublishedAt a = Now w (Z.of_nat i).
Proof.
  intros (elements & _ & ->)%fetchTheDailyStarWithColly_Ok Hia.
  rewrite list_lookup_fmap in Hia.
  destruct (articles (crawl w elements) !! i) as [a0|] eqn:Ha0; [|done].
  injection Hia as <-. rewrite enriched_ID, enriched_PublishedAt.
  by apply (crawl_invariant w elements).
Qed.

(** X2. The articles of a listing crawl are numbered in the order of the
    result: the article at index [i] has the id [dailystar_i] and the
    time stamp the clock gave for article [i]. *)
Theorem listing_numbering w url news i a :
  (fetchTheDailyStarWithColly w url).1 = Ok news ->
  news !! i = Some a ->
  NewsArticle.ID a = "dailystar_" ++ Itoa (Z.of_nat i) /\
  NewsArticle.PublishedAt a = Now w (Z.of_nat i).
Proof. apply fetched_numbering. Qed.

Lemma listing_numbering_witness :
  NewsArticle.ID (NewsArticle.setImageURL bare "https://www.thedailystar.net/img/flood.jpg")
  = "dailystar_" ++ Itoa (Z.of_nat 1) /\
  NewsArticle.PublishedAt
    (NewsArticle.setImageURL bare "https://www.thedailystar.net/img/flood.jpg")
  = Now sampleWorld (Z.of_nat 1).
Proof.
  apply (listing_numbering sampleWorld frontPageURL sampleNews).
  - vm_compute. reflexivity.
  - reflexivity.
Defined.

(** ** Facts about strings *)

Lemma append_nil_l (s : string) : "" ++ s = s.
Proof. reflexivity. Qed.

Lemma append_cons (c : ascii) (s t : string) : String c s ++ t = String c (s ++ t).
Proof. reflexivity. Qed.

Lemma length_append (s t : string) :
  String.length (s ++ t) = (String.length s + String.length t)%nat.
Proof.
  induction s as [|c s IH]; [done|]. rewrite append_cons. simpl. by rewrite IH.
Qed.

Lemma length_substring s : forall i n,
  (String.length (substring i n s) <= n)%nat.
Proof.
  induction s as [|c s IH]; intros i n.
  - destruct i, n; simpl; lia.
  - destruct i as [|i]; simpl.
    + destruct n as [|n]; simpl; [lia|]. specialize (IH 0%nat n). lia.
    + apply IH.
Qed.

Lemma length_substring_prefix s : forall n,
  (n <= String.length s)%nat -> String.length (substring 0 n s) = n.
Proof.
  induction s as [|c s IH]; intros n Hn; simpl in *.
  - destruct n; [done|lia].
  - destruct n as [|n]; simpl; [done|]. rewrite IH; lia.
Qed.

Lemma append_inj_r (p x y : string) : p ++ x = p ++ y -> x = y.
Proof.
  induction p as [|c p IH]; [done|]. rewrite !append_cons. intros [= H]. auto.
Qed.

(** [Itoa] writes different numbers differently. *)
Lemma Itoa_inj n m : Itoa n = Itoa m -> n = m.
Proof.
  unfold Itoa. intros Heq. apply DecimalZ.to_int_inj.
  assert (forall z, NilZero.int_of_string (NilZero.string_of_int (Z.to_int z)) =
                    Some (Z.to_int z)) as Hisi.
  { intros z. apply NilZero.isi; destruct z; simpl; try discriminate;
      intros [= H]; by apply DecimalPos.Unsigned.to_uint_nonnil in H. }
  pose proof (Hisi n) as Hn. rewrite Heq, Hisi in Hn. congruence.
Qed.

(** X3. The ids of the articles of a listing crawl are pairwise
    distinct. *)
Theorem listing_ids_distinct w url news :
  (fetchTheDailyStarWithColly w url).1 = Ok news ->
  NoDup (NewsArticle.ID <$> news).
Proof.
  intros Hfetch. apply NoDup_alt. intros i j id Hi Hj.
  rewrite list_lookup_fmap in Hi, Hj.
  destruct (news !! i) as [a|] eqn:Ha; [|done].
  destruct (news !! j) as [b|] eqn:Hb; [|done].
  injection Hi as Hi. injection Hj as Hj.
  destruct (fetched_numbering w url news i a Hfetch Ha) as [Hida _].
  destruct (fetched_numbering w url news j b Hfetch Hb) as [Hidb _].
  rewrite Hida in Hi. rewrite Hidb in Hj. rewrite <- Hj in Hi.
  apply append_inj_r, Itoa_inj in Hi. lia.
Qed.

Lemma listing_ids_distinct_witness : NoDup (NewsArticle.ID <$> sampleNews).
Proof.
  apply (listing_ids_distinct sampleWorld frontPageURL). vm_compute. reflexivity.
Defined.

Lemma fetched_builtFrom w url news a :
  (fetchTheDailyStarWithColly w url).1 = Ok news ->
  a ∈ news ->
  exists elements e a0,
    Visit w url = Visited elements /\ e ∈ elements /\
    builtFrom e a0 /\ a = enriched w a0.
Proof.
  intros (elements & Hvisit & ->)%fetchTheDailyStarWithColly_Ok Hin.
  apply list_elem_of_fmap in Hin as (a0 & -> & Hin).
  apply crawl_builtFrom in Hin as (e & He & Hb).
  by exists elements, e, a0.
Qed.

Lemma isCategoryLink_false link :
  isCategoryLink link = false ->
  let pathSegments := strings.Split (strings.TrimPrefix link origin) "/" in
  3 < lenSlice pathSegments /\ last pathSegments <> Some "".
Proof.
  intros Hcat pathSegments.
  assert (~ (lenSlice pathSegments <= 3 \/ last pathSegments = Some "")) as Hnot.
  { intros H. apply (isCategoryLink_true link) in H. congruence. }
  split; [lia|]. intros Hlast. apply Hnot. by right.
Qed.

Lemma notNewsLink_false link :
  notNewsLink link = false ->
  exists keyword,
    keyword ∈ sectionKeywords /\
    strings.Contains (strings.TrimPrefix link origin) keyword = true.
Proof.
  unfold notNewsLink.
  rewrite !andb_false_iff, !negb_false_iff.
  intros [[[[[H|H]|H]|H]|H]|H];
    eexists; (split; [|rewrite <- Contains_TrimPrefix; [exact H|]]);
    unfold sectionKeywords; set_solver.
Qed.

(** X4. Every article of a listing crawl carries the source
    ["thedailystar"] and a link that has passed both link tests: its path
    (the link without the origin) has more than 3 segments, the last of
    them not empty, and contains a section keyword. *)
Theorem listing_links_filtered w url news a :
  (fetchTheDailyStarWithColly w url).1 = Ok news ->
  a ∈ news ->
  NewsArticle.Source a = "thedailystar" /\
  3 < lenSlice (strings.Split (strings.TrimPrefix (NewsArticle.URL a) origin) "/") /\
  last (strings.Split (strings.TrimPrefix (NewsArticle.URL a) origin) "/") <> Some "" /\
  exists keyword,
    keyword ∈ sectionKeywords /\
    strings.Contains (strings.TrimPrefix (NewsArticle.URL a) origin) keyword = true.
Proof.
  intros Hfetch Hin.
  destruct (fetched_builtFrom w url news a Hfetch Hin)
    as (elements & e & a0 & _ & _ & Hb & ->).
  destruct Hb as (_ & _ & _ & Hurl & Hsource & _ & Hcat & Hnews).
  rewrite enriched_Source, enriched_URL, Hurl.
  split; [done|].
  destruct (isCategoryLink_false _ Hcat) as [Hlen Hlast].
  split; [done|]. split; [done|]. by apply notNewsLink_false.
Qed.

Lemma listing_links_filtered_witness :
  NewsArticle.Source withImage = "thedailystar" /\
  3 < lenSlice (strings.Split
                  (strings.TrimPrefix (NewsArticle.URL withImage) origin) "/") /\
  last (strings.Split (strings.TrimPrefix (NewsArticle.URL withImage) origin) "/")
  <> Some "" /\
  exists keyword,
    keyword ∈ sectionKeywords /\
    strings.Contains (strings.TrimPrefix (NewsArticle.URL withImage) origin) keyword
    = true.
Proof.
  apply (listing_links_filtered sampleWorld frontPageURL sampleNews).
  - vm_compute. reflexivity.
  - apply list_elem_of_here.
Defined.

(** ** The description *)

Lemma extractDescription_cases e :
  let text :=
    strings.TrimSpace
      (ChildText e "p, .summary, .intro, .teaser-text, .excerpt, .description") in
  (len text <= 200 /\ extractDescription e = text) \/
  (200 < len text /\
   extractDescription e = substring 0 200 text ++ "..." /\
   len (extractDescription e) = 203).
Proof.
  intros text. unfold extractDescription. fold text.
  destruct (200 <? len text) eqn:Hlong.
  - apply Z.ltb_lt in Hlong. right. split; [done|].
    destruct (text =? "")%string eqn:Hempty.
    + apply String.eqb_eq in Hempty. rewrite Hempty in Hlong.
      unfold len in Hlong. simpl in Hlong. lia.
    + cbn [negb andb]. unfold strings.slice. rewrite Nat.sub_0_r.
      split; [done|]. unfold len in *.
      rewrite length_append, length_substring_prefix by lia. reflexivity.
  - apply Z.ltb_ge in Hlong. left. split; [done|].
    by rewrite andb_false_r.
Qed.

(** X5. Every article a listing crawl returns comes from a container of
    the page, the one its [url] links to, and its description is the
    trimmed text of the description selectors of that container when the
    text has at most 200 bytes, and the first 200 bytes of the text and
    ["..."] when it has more: at most 203 bytes in all. The enrichment
    pass, which runs between the crawl and the return, leaves it so. *)
Theorem listing_description_cap w url news a :
  (fetchTheDailyStarWithColly w url).1 = Ok news ->
  a ∈ news ->
  exists elements e,
    Visit w url = Visited elements /\ e ∈ elements /\
    NewsArticle.URL a = linkOf e /\
    (let text :=
       strings.TrimSpace
         (ChildText e "p, .summary, .intro, .teaser-text, .excerpt, .description") in
     NewsArticle.Description a =
     if len text <=? 200 then text else substring 0 200 text ++ "...") /\
    len (NewsArticle.Description a) <= 203.
Proof.
  intros Hfetch Hin.
  destruct (fetched_builtFrom w url news a Hfetch Hin)
    as (elements & e & a0 & Hvisit & He & Hb & ->).
  destruct Hb as (_ & Hdesc & _ & Hurl & _).
  exists elements, e. split_and!; [done|done|by rewrite enriched_URL| |].
  - rewrite enriched_Description, Hdesc. simpl.
    destruct (extractDescription_cases e) as [[Hlen ->]|(Hlen & -> & _)].
    + by rewrite (proj2 (Z.leb_le _ _)).
    + by rewrite (proj2 (Z.leb_gt _ _)).
  - rewrite enriched_Description, Hdesc.
    destruct (extractDescription_cases e) as [[Hlen ->]|(_ & _ & ->)]; lia.
Qed.

Lemma listing_description_cap_witness :
  (len longText = 300 /\
   (fetchTheDailyStarWithColly longWorld frontPageURL).1 = Ok [longArticle] /\
   NewsArticle.Description longArticle = substring 0 200 longText ++ "..." /\
   len (NewsArticle.Description longArticle) = 203) /\
  exists elements e,
    Visit longWorld frontPageURL = Visited elements /\ e ∈ elements /\
    NewsArticle.URL longArticle = linkOf e /\
    (let text :=
       strings.TrimSpace
         (ChildText e "p, .summary, .intro, .teaser-text, .excerpt, .description") in
     NewsArticle.Description longArticle =
     if len text <=? 200 then text else substring 0 200 text ++ "...") /\
    len (NewsArticle.Description longArticle) <= 203.
Proof.
  split; [split_and!; vm_compute; reflexivity|].
  apply (listing_description_cap longWorld frontPageURL [longArticle]).
  - vm_compute. reflexivity.
  - apply list_elem_of_here.
Defined.

(** ** The crawl only appends, and stops at the cap *)

Lemma crawl_from_app w (l1 l2 : list HTMLElement) st :
  fold_left (fun st e => onHTML (Now w (articleID st)) e st) (l1 ++ l2) st =
  fold_left (fun st e => onHTML (Now w (articleID st)) e st) l2
    (fold_left (fun st e => onHTML (Now w (articleID st)) e st) l1 st).
Proof. apply fold_left_app. Qed.

Lemma onHTML_prefix now e st : articles st `prefix_of` articles (onHTML now e st).
Proof.
  destruct (onHTML_appends now e st) as [->|(_ & a & _ & _ & _ & ->)]; [done|].
  simpl. by apply prefix_app_r.
Qed.

Lemma crawl_from_prefix w elements : forall st,
  articles st `prefix_of`
  articles (fold_left (fun st e => onHTML (Now w (articleID st)) e st) elements st).
Proof.
  induction elements as [|e elements IH]; intros st; simpl; [done|].
  etrans; [apply onHTML_prefix|apply IH].
Qed.

Lemma crawl_from_full w elements : forall st,
  10 <= lenSlice (articles st) ->
  fold_left (fun st e => onHTML (Now w (articleID st)) e st) elements st = st.
Proof.
  induction elements as [|e elements IH]; intros st Hfull; simpl; [done|].
  destruct (onHTML_appends (Now w (articleID st)) e st) as [->|(Hlt & _)];
    [by apply IH | lia].
Qed.

(** X6. Containers further down the page never remove or reorder what was
    accepted before them: the articles of a crawl of the first containers
    are an initial segment of the articles of the crawl of all; and when
    the first containers have filled the cap of 10, the further ones
    change nothing. *)
Theorem crawl_extends w (before after : list HTMLElement) :
  articles (crawl w before) `prefix_of` articles (crawl w (before ++ after)) /\
  (lenSlice (articles (crawl w before)) = 10 ->
   crawl w (before ++ after) = crawl w before).
Proof.
  unfold crawl. rewrite crawl_from_app. split.
  - apply crawl_from_prefix.
  - intros Hfull. apply crawl_from_full. lia.
Qed.

(** ** The bytes of a title *)

Lemma bytes_append s t : bytes (s ++ t) = (bytes s ++ bytes t)%list.
Proof.
  unfold bytes. induction s as [|c s IH]; [done|].
  rewrite append_cons. simpl. by rewrite IH.
Qed.

Lemma bytes_substring s : forall i n c,
  c ∈ bytes (substring i n s) -> c ∈ bytes s.
Proof.
  unfold bytes. induction s as [|d s IH]; intros i n c.
  - destruct i, n; simpl; by intros ?%elem_of_nil.
  - destruct i as [|i]; simpl.
    + destruct n as [|n]; simpl; [by intros ?%elem_of_nil|].
      rewrite !elem_of_cons. intros [->|Hin]; [by left|right; eauto].
    + intros Hin. right. eauto.
Qed.

Lemma HasPrefix_nil s : strings.HasPrefix s "" = true.
Proof. by destruct s. Qed.

Lemma HasPrefix_byte d s c :
  strings.HasPrefix (String d s) (String c "") = Ascii.eqb d c.
Proof. cbn [strings.HasPrefix]. by rewrite HasPrefix_nil, andb_true_r. Qed.

Lemma Contains_byte c s :
  strings.Contains s (String c "") = true <-> c ∈ bytes s.
Proof.
  unfold bytes. induction s as [|d s IH].
  - simpl. split; [done|by intros ?%elem_of_nil].
  - rewrite Contains_cons, orb_true_iff, IH, HasPrefix_byte.
    cbn [list_ascii_of_string]. rewrite Ascii.eqb_eq, elem_of_cons.
    split; (intros [Heq|Hin]; [left; congruence|by right]).
Qed.

Lemma Contains_byte_false c s :
  strings.Contains s (String c "") = false <-> c ∉ bytes s.
Proof.
  rewrite <- Contains_byte.
  destruct (strings.Contains s (String c "")); split; congruence.
Qed.

Lemma indexAt_byte c s : forall i idx,
  strings.indexAt i s (String c "") = idx -> idx <> -1 -> 0 <= i ->
  i <= idx /\ c ∉ bytes (substring 0 (Z.to_nat (idx - i)) s).
Proof.
  unfold bytes. induction s as [|d s IH]; intros i idx; cbn [strings.indexAt].
  - simpl. intros <-. done.
  - rewrite HasPrefix_byte.
    destruct (Ascii.eqb_spec d c) as [->|Hne].
    + intros <- _ _. split; [lia|]. rewrite Z.sub_diag. simpl. apply not_elem_of_nil.
    + intros Hidx Hfound Hi.
      destruct (IH (i + 1) idx Hidx Hfound ltac:(lia)) as [Hle Hnot].
      split; [lia|].
      replace (Z.to_nat (idx - i)) with (S (Z.to_nat (idx - (i + 1)))) by lia.
      simpl. rewrite elem_of_cons. intros [->|Hin]; [done|by apply Hnot].
Qed.

Lemma indexAt_range substr s : forall i,
  strings.indexAt i s substr = -1 \/ i <= strings.indexAt i s substr.
Proof.
  induction s as [|d s IH]; intros i; cbn [strings.indexAt].
  - destruct (strings.HasPrefix "" substr); [right; lia|by left].
  - destruct (strings.HasPrefix (String d s) substr); [right; lia|].
    destruct (IH (i + 1)) as [?|?]; [by left|right; lia].
Qed.

Lemma Contains_false_Index s substr :
  strings.Contains s substr = false <-> strings.Index s substr = -1.
Proof.
  unfold strings.Contains, strings.Index.
  destruct (indexAt_range substr s 0) as [->|Hle]; [done|].
  rewrite Z.leb_gt. lia.
Qed.

Lemma bytes_TrimLeftFunc s f c :
  c ∈ bytes (strings.TrimLeftFunc s f) -> c ∈ bytes s.
Proof.
  unfold strings.TrimLeftFunc, strings.sliceFrom.
  destruct (_ =? -1); [by intros ?%elem_of_nil|apply bytes_substring].
Qed.

Lemma bytes_TrimRightFunc s f c :
  c ∈ bytes (strings.TrimRightFunc s f) -> c ∈ bytes s.
Proof. unfold strings.TrimRightFunc, strings.slice. apply bytes_substring. Qed.

Lemma bytes_TrimSpace s c : c ∈ bytes (strings.TrimSpace s) -> c ∈ bytes s.
Proof.
  unfold strings.TrimSpace. intros H%bytes_TrimRightFunc. by eapply bytes_TrimLeftFunc.
Qed.

Lemma bytes_fieldsAux s : forall skip infield cur field c,
  field ∈ strings.fieldsAux skip infield cur s ->
  c ∈ bytes field -> c ∈ bytes cur \/ c ∈ bytes s.
Proof.
  induction s as [|d s IH]; intros skip infield cur field c; cbn [strings.fieldsAux].
  - destruct infield; [|by intros ?%elem_of_nil].
    intros ->%list_elem_of_singleton. by left.
  - assert (forall k b, field ∈ strings.fieldsAux k b (cur ++ String d "") s ->
                        c ∈ bytes field -> c ∈ bytes cur \/ c ∈ bytes (String d s))
      as Hgrow.
    { intros k b Hin Hc. destruct (IH _ _ _ _ _ Hin Hc) as [Hcur|Hs].
      - rewrite bytes_append in Hcur. apply elem_of_app in Hcur as [?|Hd]; [by left|].
        right. unfold bytes in *. simpl in *.
        apply list_elem_of_singleton in Hd as ->. left.
      - right. unfold bytes in *. simpl. by right. }
    assert (forall k b cur', (cur' = cur \/ cur' = "") ->
                        field ∈ strings.fieldsAux k b cur' s ->
                        c ∈ bytes field -> c ∈ bytes cur \/ c ∈ bytes (String d s))
      as Hskip.
    { intros k b cur' Hcur' Hin Hc. destruct (IH _ _ _ _ _ Hin Hc) as [Hcur|Hs].
      - destruct Hcur' as [->| ->]; [by left|]. by apply elem_of_nil in Hcur.
      - right. unfold bytes in *. simpl. by right. }
    destruct skip as [|k].
    + destruct (utf8.DecodeRuneInString (String d s)) as [r size].
      destruct (unicode.IsSpace r); [|apply Hgrow].
      intros [Hin|Hin]%elem_of_app.
      * destruct infield; [|by apply elem_of_nil in Hin].
        apply list_elem_of_singleton in Hin as ->. by left.
      * intros Hc. eapply Hskip; [by right|exact Hin|exact Hc].
    + destruct infield; [apply Hgrow|].
      intros Hin Hc. eapply Hskip; [by left|exact Hin|exact Hc].
Qed.

Lemma bytes_Fields s field c :
  field ∈ strings.Fields s -> c ∈ bytes field -> c ∈ bytes s.
Proof.
  unfold strings.Fields. intros Hin Hc.
  destruct (bytes_fieldsAux s _ _ _ _ _ Hin Hc) as [H|H]; [|done].
  by apply elem_of_nil in H.
Qed.

Lemma bytes_Join sep elems c :
  c ∈ bytes (strings.Join elems sep) ->
  c ∈ bytes sep \/ exists elem, elem ∈ elems /\ c ∈ bytes elem.
Proof.
  unfold strings.Join. induction elems as [|x elems IH]; simpl.
  - by intros ?%elem_of_nil.
  - destruct elems as [|y elems].
    + intros Hc. right. exists x. split; [left|done].
    + rewrite !bytes_append, !elem_of_app.
      intros [Hx|[Hsep|Hrest]].
      * right. exists x. split; [left|done].
      * by left.
      * destruct (IH Hrest) as [?|(elem & Hin & Hc)]; [by left|].
        right. exists elem. split; [by right|done].
Qed.

Lemma bytes_ReplaceAll_byte s old new c :
  c ∈ bytes (strings.ReplaceAll s (String old "") new) ->
  c ∈ bytes new \/ (c ∈ bytes s /\ c <> old).
Proof.
  unfold strings.ReplaceAll.
  induction s as [|d s IH]; cbn [strings.replaceAux].
  - by intros ?%elem_of_nil.
  - rewrite HasPrefix_byte. cbn [String.length Nat.sub].
    destruct (Ascii.eqb_spec d old) as [->|Hne].
    + rewrite bytes_append, elem_of_app.
      intros [?|[?|[Hin Hc]]%IH]; [by left|by left|].
      right. split; [|done]. unfold bytes in *. simpl. by right.
    + unfold bytes at 1. simpl. rewrite elem_of_cons.
      intros [->|[?|[Hin Hc]]%IH].
      * right. split; [|done]. unfold bytes. simpl. left.
      * by left.
      * right. split; [|done]. unfold bytes in *. simpl. by right.
Qed.

Lemma bytes_normalizeTitle title c :
  c ∈ bytes (normalizeTitle title) ->
  c <> ascii_of_nat 10 /\ c <> ascii_of_nat 13 /\ c <> ascii_of_nat 9.
Proof.
  unfold normalizeTitle, LF, CR, TAB. intros Hc.
  assert (c ∈ bytes " " \/
          c ∈ bytes (strings.ReplaceAll
                       (strings.ReplaceAll
                          (strings.ReplaceAll title (String (ascii_of_nat 10) "") " ")
                          (String (ascii_of_nat 13) "") " ")
                       (String (ascii_of_nat 9) "") " ")) as [Hsp|Hin].
  { apply bytes_Join in Hc as [?|(field & Hfield & Hc)]; [by left|].
    right. by eapply bytes_Fields. }
  - apply list_elem_of_singleton in Hsp as ->. by repeat split.
  - apply bytes_ReplaceAll_byte in Hin as [Hsp|[Hin Htab]];
      [apply list_elem_of_singleton in Hsp as ->; by repeat split|].
    apply bytes_ReplaceAll_byte in Hin as [Hsp|[Hin Hcr]];
      [apply list_elem_of_singleton in Hsp as ->; by repeat split|].
    apply bytes_ReplaceAll_byte in Hin as [Hsp|[Hin Hlf]];
      [apply list_elem_of_singleton in Hsp as ->; by repeat split|].
    done.
Qed.

Lemma bytes_truncateAt sep title :
  (forall c, c ∈ bytes (truncateAt (String sep "") title) -> c ∈ bytes title) /\
  sep ∉ bytes (truncateAt (String sep "") title).
Proof.
  unfold truncateAt, strings.slice.
  destruct (strings.Index title (String sep "") =? -1) eqn:Hidx; cbn [negb].
  - apply Z.eqb_eq, Contains_false_Index, Contains_byte_false in Hidx. done.
  - apply Z.eqb_neq in Hidx. split.
    + intros c Hc%bytes_TrimSpace. by eapply bytes_substring.
    + intros Hc%bytes_TrimSpace.
      destruct (indexAt_byte sep title 0 _ eq_refl Hidx ltac:(lia)) as [_ Hnot].
      rewrite Z.sub_0_r in Hnot. fold (strings.Index title (String sep "")) in Hnot.
      by rewrite Nat.sub_0_r in Hc.
Qed.

Lemma truncateAt_absent sep title :
  strings.Contains title sep = false -> truncateAt sep title = title.
Proof.
  intros Hidx%Contains_false_Index. unfold truncateAt. by rewrite Hidx.
Qed.

Lemma truncateTitle_bytes title :
  (forall c, c ∈ bytes (truncateTitle title) -> c ∈ bytes title) /\
  strings.Contains (truncateTitle title) "," = false /\
  strings.Contains (truncateTitle title) "." = false.
Proof.
  unfold truncateTitle.
  destruct (bytes_truncateAt "," title) as [Hsub1 Hcomma].
  destruct (bytes_truncateAt "." (truncateAt "," title)) as [Hsub2 Hdot].
  split; [auto|]. split; apply Contains_byte_false; [|done].
  intros Hin. apply Hcomma. auto.
Qed.

Lemma cleaned_title_bytes title separator :
  separator ∈ [","; "."; LF; CR; TAB] ->
  strings.Contains (truncateTitle (normalizeTitle title)) separator = false.
Proof.
  destruct (truncateTitle_bytes (normalizeTitle title)) as (Hsub & Hcomma & Hdot).
  rewrite !elem_of_cons, elem_of_nil.
  intros [->|[->|[->|[->|[->|[]]]]]]; [done|done|..];
    apply Contains_byte_false; intros Hin%Hsub%bytes_normalizeTitle;
    destruct Hin as (? & ? & ?); done.
Qed.

(** X7. No title of a listing crawl contains a comma, a period, a line
    feed, a carriage return or a tab. *)
Theorem listing_title_bytes w url news a separator :
  (fetchTheDailyStarWithColly w url).1 = Ok news ->
  a ∈ news ->
  separator ∈ [","; "."; LF; CR; TAB] ->
  strings.Contains (NewsArticle.Title a) separator = false.
Proof.
  intros Hfetch Hin Hsep.
  destruct (fetched_builtFrom w url news a Hfetch Hin)
    as (elements & e & a0 & _ & _ & Hb & ->).
  destruct Hb as (Htitle & _).
  rewrite enriched_Title, Htitle. by apply cleaned_title_bytes.
Qed.

Lemma listing_title_bytes_witness :
  strings.Contains (NewsArticle.Title withImage) "," = false.
Proof.
  apply (listing_title_bytes sampleWorld frontPageURL sampleNews).
  - vm_compute. reflexivity.
  - apply list_elem_of_here.
  - apply list_elem_of_here.
Defined.

(** X8. Truncating a title a second time changes nothing: what is left
    after the first cut has neither comma nor period. *)
Theorem truncateTitle_idempotent title :
  truncateTitle (truncateTitle title) = truncateTitle title.
Proof.
  destruct (truncateTitle_bytes title) as (_ & Hcomma & Hdot).
  unfold truncateTitle at 1.
  by rewrite (truncateAt_absent "," _ Hcomma), (truncateAt_absent "." _ Hdot).
Qed.

(** ** The search for an image on a story page *)

Lemma eachAttr_firstValue attr nodes : forall imageURL,
  eachAttr attr nodes imageURL =
  if (imageURL =? "")%string then firstValue attr nodes else imageURL.
Proof.
  unfold eachAttr, firstValue.
  induction nodes as [|s nodes IH]; intros imageURL; simpl.
  - by destruct (String.eqb_spec imageURL "").
  - rewrite IH. destruct (Attr s attr) as [src|]; simpl; [|done].
    destruct (String.eqb_spec imageURL "") as [->|Hne].
    + rewrite filter_cons. destruct (decide (src <> "")) as [Hsrc|Hsrc]; simpl.
      * by apply String.eqb_neq in Hsrc as ->.
      * apply dec_stable in Hsrc. by subst src.
    + by apply String.eqb_neq in Hne as ->.
Qed.

(** X9. On a story page the first of four places that yields a non-empty
    value decides the image: [data-srcset] of [picture img], [data-src]
    of [span.lg-gallery], [content] of the Open Graph image tag, [src] of
    an image of the article body; each place yields the value at its
    first node where the attribute is there and not empty. When all four
    yield nothing the search fails. *)
Theorem findImage_first_candidate url doc :
  findImage url doc =
  match head (filter (fun value => value <> "") (imageCandidates doc)) with
  | Some imageURL => Ok imageURL
  | None => Err ("no image found on page: " ++ url)
  end.
Proof.
  unfold findImage, imageCandidates.
  rewrite (eachAttr_firstValue "data-srcset" _ ""). cbn [String.eqb].
  set (c1 := firstValue "data-srcset" (Find doc "picture img")).
  rewrite filter_cons. destruct (decide (c1 <> "")) as [H1|H1].
  { apply String.eqb_neq in H1. by rewrite H1. }
  apply dec_stable in H1. rewrite H1. cbn [String.eqb negb].
  rewrite (eachAttr_firstValue "data-src" _ ""). cbn [String.eqb].
  set (c2 := firstValue "data-src" (Find doc "span.lg-gallery")).
  rewrite filter_cons. destruct (decide (c2 <> "")) as [H2|H2].
  { apply String.eqb_neq in H2. by rewrite H2. }
  apply dec_stable in H2. rewrite H2. cbn [String.eqb negb].
  rewrite (eachAttr_firstValue "content" _ ""). cbn [String.eqb].
  set (c3 := firstValue "content" (Find doc "meta[property='og:image']")).
  rewrite filter_cons. destruct (decide (c3 <> "")) as [H3|H3].
  { apply String.eqb_neq in H3. by rewrite H3. }
  apply dec_stable in H3. rewrite H3. cbn [String.eqb negb].
  rewrite (eachAttr_firstValue "src" _ ""). cbn [String.eqb].
  set (c4 := firstValue "src" (Find doc "article img, div.section-media img")).
  rewrite filter_cons. destruct (decide (c4 <> "")) as [H4|H4].
  { apply String.eqb_neq in H4. by rewrite H4. }
  apply dec_stable in H4. by rewrite H4.
Qed.

Lemma findImage_nonempty url doc imageURL :
  findImage url doc = Ok imageURL -> imageURL <> "".
Proof.
  unfold findImage.
  repeat match goal with
  | |- context [eachAttr ?attr (Find doc ?sel) ?img0] =>
    let Himg := fresh "Himg" in
    destruct (String.eqb_spec (eachAttr attr (Find doc sel) img0) "") as [Himg|Himg];
      [rewrite Himg; cbn [negb] | cbn [negb]; by intros [= <-]]
  end.
  discriminate.
Qed.

Lemma scrapeImageFromURL_nonempty w url imageURL :
  (scrapeImageFromURL w url).1 = Ok imageURL -> imageURL <> "".
Proof.
  unfold scrapeImageFromURL.
  destruct (Get w url) as [err|err|code [doc|err]]; simpl; try discriminate.
  - unfold mbind, Eff_bind. simpl.
    destruct (negb (code =? StatusOK)); simpl; [discriminate|].
    apply findImage_nonempty.
  - unfold mbind, Eff_bind. simpl.
    destruct (negb (code =? StatusOK)); simpl; discriminate.
Qed.

(** ** The enrichment pass: what it changes and what it does *)

Lemma enriched_ImageURL_empty w a :
  NewsArticle.ImageURL (enriched w a) = "" <->
  NewsArticle.ImageURL a = "" /\
  exists err, (scrapeImageFromURL w (NewsArticle.URL a)).1 = Err err.
Proof.
  unfold enriched.
  destruct (String.eqb_spec (NewsArticle.ImageURL a) "") as [Hempty|Hfull].
  - destruct (scrapeImageFromURL w (NewsArticle.URL a)).1 as [imageURL|err] eqn:Hs.
    + apply scrapeImageFromURL_nonempty in Hs. simpl.
      split; [done|]. by intros [_ [err [=]]].
    + split; [eauto|done].
  - split; [done|]. by intros [? _].
Qed.

(** X10. The enrichment pass changes nothing of an article but its image:
    id, title, description, link, source and time stamp stay, and so do
    the number and the order of the articles. An image found is never
    empty: after the pass an article has no image exactly when it had none
    before and the search on its page failed. *)
Theorem enrichment_changes_image_only w arts arts' events i a :
  updateMissingImageURLs w arts = (arts', events) ->
  arts !! i = Some a ->
  exists a',
    arts' !! i = Some a' /\
    NewsArticle.ID a' = NewsArticle.ID a /\
    NewsArticle.Title a' = NewsArticle.Title a /\
    NewsArticle.Description a' = NewsArticle.Description a /\
    NewsArticle.URL a' = NewsArticle.URL a /\
    NewsArticle.Source a' = NewsArticle.Source a /\
    NewsArticle.PublishedAt a' = NewsArticle.PublishedAt a /\
    (NewsArticle.ImageURL a' = "" <->
     NewsArticle.ImageURL a = "" /\
     exists err, (scrapeImageFromURL w (NewsArticle.URL a)).1 = Err err).
Proof.
  rewrite updateMissingImageURLs_spec. intros [= <- <-] Ha.
  exists (enriched w a). rewrite list_lookup_fmap, Ha.
  rewrite enriched_ID, enriched_Title, enriched_Description, enriched_URL,
    enriched_Source, enriched_PublishedAt.
  split_and!; try done. apply enriched_ImageURL_empty.
Qed.

Lemma enrichment_changes_image_only_witness :
  exists a',
    enrichedPair !! 1%nat = Some a' /\
    NewsArticle.ID a' = NewsArticle.ID bare /\
    NewsArticle.Title a' = NewsArticle.Title bare /\
    NewsArticle.Description a' = NewsArticle.Description bare /\
    NewsArticle.URL a' = NewsArticle.URL bare /\
    NewsArticle.Source a' = NewsArticle.Source bare /\
    NewsArticle.PublishedAt a' = NewsArticle.PublishedAt bare /\
    (NewsArticle.ImageURL a' = "" <->
     NewsArticle.ImageURL bare = "" /\
     exists err, (scrapeImageFromURL sampleWorld (NewsArticle.URL bare)).1 = Err err).
Proof.
  apply (enrichment_changes_image_only sampleWorld [withImage; bare]
           enrichedPair pairEvents 1%nat bare).
  - vm_compute. reflexivity.
  - reflexivity.
Defined.

Lemma requests_app l1 l2 : requests (l1 ++ l2) = (requests l1 ++ requests l2)%list.
Proof. apply omap_app. Qed.

Lemma slept_app l1 l2 : slept (l1 ++ l2) = slept l1 + slept l2.
Proof.
  unfold slept. induction l1 as [|ev l1 IH]; simpl; [done|].
  rewrite IH. destruct ev; lia.
Qed.

Lemma scrapeImageFromURL_trace w url :
  (scrapeImageFromURL w url).2 =
  match Get w url with NewRequestError _ => [] | _ => [EvGet url] end.
Proof.
  unfold scrapeImageFromURL.
  destruct (Get w url) as [err|err|code [doc|err]]; simpl; try done;
    unfold mbind, Eff_bind; simpl; by destruct (negb (code =? StatusOK)).
Qed.

Lemma enrichmentEvents_requests w a :
  requests (enrichmentEvents w a) =
  if requested w a then [NewsArticle.URL a] else [].
Proof.
  unfold enrichmentEvents, requested.
  destruct (NewsArticle.ImageURL a =? "")%string; [|done]. cbn [andb].
  pose proof (scrapeImageFromURL_trace w (NewsArticle.URL a)) as Htrace.
  destruct (scrapeImageFromURL w (NewsArticle.URL a)) as [r events].
  simpl in Htrace. subst events.
  destruct r, (Get w (NewsArticle.URL a)); by rewrite requests_app.
Qed.

Lemma enrichmentEvents_slept w a :
  slept (enrichmentEvents w a) = if filled w a then 1 else 0.
Proof.
  unfold enrichmentEvents, filled.
  destruct (NewsArticle.ImageURL a =? "")%string; [|done]. cbn [andb].
  pose proof (scrapeImageFromURL_trace w (NewsArticle.URL a)) as Htrace.
  destruct (scrapeImageFromURL w (NewsArticle.URL a)) as [r events].
  simpl in Htrace. subst events.
  destruct r, (Get w (NewsArticle.URL a)); by rewrite slept_app.
Qed.

(** X11. The pages the enrichment pass requests are, in order, the pages
    of the articles that have no image (and whose URL a request can be
    made for): one request each, to the article's own link, none for any
    other article. *)
Theorem enrichment_requests w arts arts' events :
  updateMissingImageURLs w arts = (arts', events) ->
  requests events =
  NewsArticle.URL <$> filter (fun a => requested w a = true) arts.
Proof.
  rewrite updateMissingImageURLs_spec. intros [= _ <-].
  induction arts as [|a arts IH]; [done|].
  csimpl. rewrite requests_app, IH, enrichmentEvents_requests, filter_cons.
  destruct (requested w a); by destruct (decide _).
Qed.

Lemma enrichment_requests_witness :
  requests pairEvents =
  NewsArticle.URL <$> filter (fun a => requested sampleWorld a = true) [withImage; bare].
Proof.
  apply (enrichment_requests sampleWorld [withImage; bare] enrichedPair pairEvents).
  vm_compute. reflexivity.
Defined.

(** X12. The enrichment pass sleeps one second for every image it finds,
    and not at all after a search that fails or for an article it
    skips. *)
Theorem enrichment_sleeps w arts arts' events :
  updateMissingImageURLs w arts = (arts', events) ->
  slept events = Z.of_nat (length (filter (fun a => filled w a = true) arts)).
Proof.
  rewrite updateMissingImageURLs_spec. intros [= _ <-].
  induction arts as [|a arts IH]; [done|].
  csimpl. rewrite slept_app, IH, enrichmentEvents_slept, filter_cons.
  destruct (filled w a); destruct (decide _); try done; simpl; lia.
Qed.

Lemma enrichment_sleeps_witness :
  slept pairEvents =
  Z.of_nat (length (filter (fun a => filled sampleWorld a = true) [withImage; bare])).
Proof.
  apply (enrichment_sleeps sampleWorld [withImage; bare] enrichedPair pairEvents).
  vm_compute. reflexivity.
Defined.

(** X13. The pass over a list put together from two lists is the pass
    over the first followed by the pass over the second: a failure on one
    article ends nothing, and no article's outcome depends on another. *)
Theorem enrichment_app w (arts1 arts2 : list NewsArticle.t) :
  updateMissingImageURLs w (arts1 ++ arts2) =
  (done1 ← updateMissingImageURLs w arts1;
   done2 ← updateMissingImageURLs w arts2;
   mret (done1 ++ done2)%list).
Proof.
  rewrite !updateMissingImageURLs_spec. unfold mbind, Eff_bind, mret, Eff_ret.
  rewrite !fmap_app, join_app, app_nil_r. reflexivity.
Qed.

Lemma enriched_twice w a : enriched w (enriched w a) = enriched w a.
Proof.
  destruct (String.eqb_spec (NewsArticle.ImageURL (enriched w a)) "") as [He|He].
  - apply enriched_ImageURL_empty in He as [Hempty [err Herr]].
    assert (enriched w a = a) as Hsame.
    { unfold enriched. by rewrite Hempty, Herr. }
    by rewrite !Hsame.
  - by apply enriched_with_image.
Qed.

(** X14. While the sites answer the same, a second enrichment pass leaves
    the articles as the first pass left them: an image found is kept, and
    a search that failed fails again. *)
Theorem enrichment_twice w (arts : list NewsArticle.t) :
  (updateMissingImageURLs w arts ≫= updateMissingImageURLs w).1 =
  (updateMissingImageURLs w arts).1.
Proof.
  rewrite bind_eff, !updateMissingImageURLs_spec. simpl.
  rewrite <- list_fmap_compose. apply list_fmap_ext.
  intros i a _. simpl. apply enriched_twice.
Qed.

(** ** The list of sources *)

Lemma sources_from (visited : list (string * Source.t)) : forall acc,
  fold_left (fun sources entry => (sources ++ [entry.2])%list) visited acc =
  (acc ++ visited.*2)%list.
Proof.
  induction visited as [|entry visited IH]; intros acc; simpl.
  - by rewrite app_nil_r.
  - by rewrite IH, <- app_assoc.
Qed.

(** X15. [GetAvailableSources] always answers, with status 200 and
    [success = true], and lists every source of the registry exactly
    once, active or not, in an order that is not fixed. *)
Theorem sources_all_listed ns :
  (exists resp, GetAvailableSources ns resp) /\
  forall resp,
    GetAvailableSources ns resp ->
    SourcesStatus resp = StatusOK /\
    SourcesResponse.Success (SourcesPayload resp) = true /\
    SourcesResponse.Sources (SourcesPayload resp) ≡ₚ (map_to_list (sources ns)).*2 /\
    forall name source,
      sources ns !! name = Some source ->
      source ∈ SourcesResponse.Sources (SourcesPayload resp).
Proof.
  split.
  - exists (respondSources (map_to_list (sources ns))). by constructor.
  - intros resp [visited Hvisited]. unfold respondSources. simpl.
    rewrite sources_from. simpl.
    split; [done|]. split; [done|]. split; [by rewrite Hvisited|].
    intros name source Hlookup. apply list_elem_of_fmap.
    exists (name, source). split; [done|].
    rewrite Hvisited. by apply elem_of_map_to_list.
Qed.

(** ** [GetAllNews]: who contributes *)

Lemma scraped_other w entry :
  entry.1 <> "thedailystar" -> scraped w entry = None.
Proof.
  intros Hname%String.eqb_neq. unfold scraped, fetchNewsFromSource.
  by rewrite Hname.
Qed.

Lemma omap_none {A B} (f : A -> option B) (l : list A) :
  (forall x, x ∈ l -> f x = None) -> omap f l = [].
Proof.
  induction l as [|x l IH]; intros Hall; csimpl; [done|].
  rewrite (Hall x) by left. apply IH. intros y Hy. apply Hall. by right.
Qed.

Lemma scraped_launched_without w (m : gmap string Source.t) :
  m !! "thedailystar" = None ->
  omap (scraped w)
       (filter (fun entry => Source.Active entry.2 = true) (map_to_list m)) = [].
Proof.
  intros Hnone. apply omap_none. intros [name source] Hin.
  apply list_elem_of_filter in Hin as [_ Hin]. apply elem_of_map_to_list in Hin.
  apply scraped_other. simpl. congruence.
Qed.

Lemma scraped_launched w ns :
  omap (scraped w) (launched ns) ≡ₚ
  match sources ns !! "thedailystar" with
  | Some source =>
    if Source.Active source
    then option_list (scraped w ("thedailystar", source))
    else []
  | None => []
  end.
Proof.
  unfold launched.
  destruct (sources ns !! "thedailystar") as [source|] eqn:Hlookup.
  - rewrite <- (map_to_list_delete _ _ _ Hlookup), filter_cons. simpl.
    pose proof (scraped_launched_without w (delete "thedailystar" (sources ns))
                  (lookup_delete_eq _ _)) as Hrest.
    destruct (Source.Active source); destruct (decide _); try done; csimpl.
    + rewrite Hrest. by destruct (scraped w ("thedailystar", source)).
    + by rewrite Hrest.
  - by rewrite scraped_launched_without.
Qed.

Lemma GetAllNews_dailyStar w ns resp :
  GetAllNews w ns resp -> resp = allNewsResponse (dailyStarNews w ns).
Proof.
  intros [arrival Harrival]. rewrite respondAll_scraped. f_equal.
  assert (omap (scraped w) arrival ≡ₚ omap (scraped w) (launched ns)) as Hperm
    by (by rewrite Harrival).
  rewrite scraped_launched in Hperm. unfold dailyStarNews.
  destruct (sources ns !! "thedailystar") as [source|].
  - destruct (Source.Active source).
    + destruct (scraped w ("thedailystar", source)) as [news|]; simpl in *.
      * apply Permutation_singleton_r in Hperm as ->. simpl. by rewrite app_nil_r.
      * by apply Permutation_nil_r in Hperm as ->.
    + by apply Permutation_nil_r in Hperm as ->.
  - by apply Permutation_nil_r in Hperm as ->.
Qed.

(** X16. The answer of [GetAllNews] does not depend on the order in which
    the goroutines finish: only ["thedailystar"] has a scraper, so the
    data are its articles when it is registered, active and its scrape
    succeeds, and empty otherwise, whatever other sources the registry
    holds. *)
Theorem all_news_determined w ns resp :
  GetAllNews w ns resp -> resp = allNewsResponse (dailyStarNews w ns).
Proof. apply GetAllNews_dailyStar. Qed.

Lemma all_news_determined_witness :
  respondAll sampleWorld (launched twoSources) =
  allNewsResponse (dailyStarNews sampleWorld twoSources).
Proof.
  apply (all_news_determined sampleWorld twoSources).
  constructor. reflexivity.
Defined.

(** X17. Two requests served in one and the same world [w] (the same
    pages behind every URL and the same clock, so that both scrapes read
    the same times) compare as follows, for a registered and active
    ["thedailystar"]: when the request for the one source is answered
    with articles, [GetAllNews] answers with the same articles and the
    same count; when it is answered with [fetch_error], [GetAllNews]
    still answers with success, and no article. Two requests of a running
    server read the clock at different times, and the pages may change
    in between: of those the theorem says nothing. *)
Theorem all_news_and_by_source w ns source resp :
  sources ns !! "thedailystar" = Some source ->
  Source.Active source = true ->
  GetAllNews w ns resp ->
  match Payload (GetNewsBySource w ns "thedailystar").1 with
  | NewsBody r =>
    resp = allNewsResponse (NewsResponse.Data r) /\
    NewsResponse.Count r = lenSlice (NewsResponse.Data r)
  | ErrorBody r =>
    ErrorResponse.Error r = "fetch_error" /\ resp = allNewsResponse []
  end.
Proof.
  intros Hlookup Hactive ->%GetAllNews_dailyStar.
  unfold dailyStarNews, GetNewsBySource, scraped. rewrite Hlookup, Hactive. simpl.
  unfold mbind, Eff_bind.
  destruct (fetchNewsFromSource w "thedailystar" (Source.URL source))
    as [[news|err] events]; simpl; done.
Qed.

Lemma all_news_and_by_source_witness :
  match Payload (GetNewsBySource sampleWorld twoSources "thedailystar").1 with
  | NewsBody r =>
    respondAll sampleWorld (launched twoSources) =
    allNewsResponse (NewsResponse.Data r) /\
    NewsResponse.Count r = lenSlice (NewsResponse.Data r)
  | ErrorBody r =>
    ErrorResponse.Error r = "fetch_error" /\
    respondAll sampleWorld (launched twoSources) = allNewsResponse []
  end.
Proof.
  apply (all_news_and_by_source sampleWorld twoSources
           (Source.mk "thedailystar" "The Daily Star"
                      "https://www.thedailystar.net/" true)).
  - vm_compute. reflexivity.
  - reflexivity.
  - constructor. reflexivity.
Defined.

(** ** The stand-alone scraper *)

Lemma standalone_onHTML_cases now e run :
  (Standalone.hasTitleAndLink e = false /\ Standalone.onHTML now e run = run) \/
  (Standalone.hasTitleAndLink e = true /\
   exists a,
     NewsArticle.ID a = "dailystar_" ++ Itoa (Standalone.articleID run) /\
     NewsArticle.Description a = "" /\
     NewsArticle.Source a = "thedailystar" /\
     Standalone.onHTML now e run =
     {| Standalone.response :=
          {| Standalone.Success := Standalone.Success (Standalone.response run);
             Standalone.Data := (Standalone.Data (Standalone.response run) ++ [a])%list;
             Standalone.Count := Standalone.Count (Standalone.response run) + 1;
             Standalone.Source := Standalone.Source (Standalone.response run) |};
        Standalone.articleID := Standalone.articleID run + 1 |}).
Proof.
  unfold Standalone.hasTitleAndLink, Standalone.onHTML.
  destruct (Standalone.titleLinkLoop e Standalone.titleSelectors "" "") as [title link].
  destruct ((title =? "")%string || (link =? "")%string); [by left|].
  right. split; [done|]. eexists. split_and!; [| | |reflexivity]; reflexivity.
Qed.

Lemma standalone_onHTML_invariant now e run :
  standaloneInvariant run -> standaloneInvariant (Standalone.onHTML now e run).
Proof.
  intros (Hcount & Hid & Hok & Hsrc & Hnum).
  destruct (standalone_onHTML_cases now e run)
    as [[_ ->]|(_ & a & Ha & Hdesc & Hsource & ->)]; [done|].
  unfold standaloneInvariant, lenSlice in *. simpl. rewrite length_app. simpl.
  split_and!; try done; try lia.
  intros i b Hb. apply lookup_app_Some in Hb as [Hb|[Hge Hb]]; [by apply Hnum|].
  apply list_lookup_singleton_Some in Hb as [Hi <-].
  assert (Z.of_nat i = Standalone.articleID run) as -> by lia. done.
Qed.

Lemma standalone_run_invariant w elements : forall run,
  standaloneInvariant run ->
  standaloneInvariant
    (fold_left (fun run e => Standalone.onHTML (Now w (Standalone.articleID run)) e run)
               elements run).
Proof.
  induction elements as [|e elements IH]; intros run Hrun; simpl; [done|].
  by apply IH, standalone_onHTML_invariant.
Qed.

Lemma standalone_start_invariant : standaloneInvariant Standalone.start.
Proof.
  unfold standaloneInvariant, lenSlice. simpl.
  split_and!; try done; intros i a Hia; by rewrite lookup_nil in Hia.
Qed.

(** X18. In the response the stand-alone scraper prints, [Count] is the
    number of articles in [Data], [Source] is ["thedailystar"], the
    article at index [i] has the id [dailystar_i], an empty description
    and the source ["thedailystar"]; and [Success] is false exactly when
    the visit of the front page fails, in which case there is no
    article. *)
Theorem standalone_response w :
  let r := Standalone.main w in
  Standalone.Count r = lenSlice (Standalone.Data r) /\
  Standalone.Source r = "thedailystar" /\
  (forall i a, Standalone.Data r !! i = Some a ->
     NewsArticle.ID a = "dailystar_" ++ Itoa (Z.of_nat i) /\
     NewsArticle.Description a = "" /\
     NewsArticle.Source a = "thedailystar") /\
  (Standalone.Success r = false <->
   exists err, Visit w "https://www.thedailystar.net/" = VisitError err) /\
  (Standalone.Success r = false -> Standalone.Data r = []).
Proof.
  cbv zeta. unfold Standalone.main.
  destruct (Visit w "https://www.thedailystar.net/") as [err|elements].
  - simpl. split_and!; try done. split; eauto.
  - destruct (standalone_run_invariant w elements _ standalone_start_invariant)
      as (Hcount & _ & Hok & Hsrc & Hnum).
    split_and!; try done.
    + rewrite Hok. split; [done|]. by intros [err [=]].
    + by rewrite Hok.
Qed.

Lemma standalone_count_from w elements : forall run,
  length (Standalone.Data (Standalone.response
    (fold_left (fun run e => Standalone.onHTML (Now w (Standalone.articleID run)) e run)
               elements run))) =
  (length (Standalone.Data (Standalone.response run)) +
   length (filter (fun e => Standalone.hasTitleAndLink e = true) elements))%nat.
Proof.
  induction elements as [|e elements IH]; intros run; simpl; [lia|].
  rewrite IH, filter_cons.
  destruct (standalone_onHTML_cases (Now w (Standalone.articleID run)) e run)
    as [[Hno ->]|(Hyes & a & _ & _ & _ & ->)].
  - rewrite Hno. by destruct (decide _).
  - rewrite Hyes. destruct (decide _); [|done]. simpl. rewrite length_app. simpl. lia.
Qed.

(** X19. The stand-alone scraper drops no candidate: it makes one article
    of every container in which the selector loop finds a title and a
    link, duplicates and navigation links included. *)
Theorem standalone_keeps_all w elements :
  Visit w "https://www.thedailystar.net/" = Visited elements ->
  lenSlice (Standalone.Data (Standalone.main w)) =
  lenSlice (filter (fun e => Standalone.hasTitleAndLink e = true) elements).
Proof.
  intros Hvisit. unfold Standalone.main, lenSlice. rewrite Hvisit.
  rewrite standalone_count_from. simpl. done.
Qed.

Lemma standalone_keeps_all_witness :
  lenSlice (Standalone.Data (Standalone.main sampleWorld)) =
  lenSlice (filter (fun e => Standalone.hasTitleAndLink e = true)
                   [floodTeaser; greetingTeaser; floodTeaser]).
Proof.
  apply (standalone_keeps_all sampleWorld). reflexivity.
Defined.

(** ** Containers the listing callback skips *)

Lemma titleLoop_rejected e selectors : forall title0,
  head (filter (fun title => negb (title =? "")%string && (10 <=? len title) = true)
               ((fun selector => strings.TrimSpace (ChildText e selector))
                  <$> selectors)) = None ->
  titleLoop e selectors title0 =
  default title0
          (last ((fun selector => strings.TrimSpace (ChildText e selector))
                   <$> selectors)).
Proof.
  induction selectors as [|selector rest IH]; intros title0; simpl; [done|].
  rewrite filter_cons. destruct (decide _) as [Hok|Hno]; [done|].
  apply not_true_is_false in Hno. rewrite Hno. intros Hnone.
  rewrite (IH _ Hnone), last_cons.
  by destruct (last _).
Qed.

(** X20. The listing callback skips a container without a usable title or
    without a link: when no title selector yields a text of at least 10
    bytes and the last selector, [.headline], yields no text at all, and
    when the container has no [a href], the articles stay as they
    are. *)
Theorem skips_incomplete_container now e st :
  (acceptedTitle e = None /\ strings.TrimSpace (ChildText e ".headline") = "") \/
  ChildAttr e "a" "href" = "" ->
  onHTML now e st = st.
Proof.
  intros Hskip.
  destruct (onHTML_cases now e st)
    as [|(_ & Htitle & Hhref & _)]; [done|].
  destruct Hskip as [[Hnone Hlast]|Hnolink]; [|done].
  exfalso. apply Htitle.
  rewrite (titleLoop_rejected e titleSelectors "" Hnone).
  unfold titleSelectors. simpl. by rewrite Hlast.
Qed.

Lemma skips_incomplete_container_witness :
  onHTML 0 (element [("h2", "Sports")] [("a", [("href", "/news/a/b/c")])])
         {| articles := []; articleID := 0 |} =
  {| articles := []; articleID := 0 |}.
Proof.
  apply (skips_incomplete_container 0
           (element [("h2", "Sports")] [("a", [("href", "/news/a/b/c")])])).
  left. split; vm_compute; reflexivity.
Defined.

(** ** The image of a listing container *)

Lemma bytes_first_splitAux sep s : forall cur c,
  c ∈ bytes (first (strings.splitAux (String sep "") 0 cur s)) ->
  c ∈ bytes cur \/ (c ∈ bytes s /\ c <> sep).
Proof.
  induction s as [|d s IH]; intros cur c; cbn [strings.splitAux].
  - simpl. by left.
  - rewrite HasPrefix_byte. destruct (Ascii.eqb_spec d sep) as [->|Hne].
    + simpl. by left.
    + intros [Hcur|[Hin Hc]]%IH.
      * rewrite bytes_append in Hcur. apply elem_of_app in Hcur as [?|Hd]; [by left|].
        apply list_elem_of_singleton in Hd as ->.
        right. split; [|done]. unfold bytes. simpl. left.
      * right. split; [|done]. unfold bytes in *. simpl. by right.
Qed.

Lemma bytes_first_Split sep s c :
  c ∈ bytes (first (strings.Split s (String sep ""))) -> c ∈ bytes s /\ c <> sep.
Proof.
  unfold strings.Split. intros [Hcur|H]%bytes_first_splitAux; [|done].
  by apply elem_of_nil in Hcur.
Qed.

(** X21. The image a listing container yields never contains a comma: of
    a resolved value that lists several candidates only the first is
    kept, and that one up to its first space. *)
Theorem listing_image_single e :
  strings.Contains (extractImage e) "," = false /\
  (forall imageURL,
     strings.Contains (AbsoluteURL (Req e) imageURL) "," = true ->
     strings.Contains (resolveImage e imageURL) " " = false).
Proof.
  assert (forall imageURL, strings.Contains (resolveImage e imageURL) "," = false)
    as Hcomma.
  { intros imageURL. unfold resolveImage.
    destruct (strings.Contains (AbsoluteURL (Req e) imageURL) ",") eqn:Hc; [|done].
    apply Contains_byte_false.
    intros Hin%bytes_TrimSpace%bytes_first_Split.
    destruct Hin as [Hin _]. by apply bytes_first_Split in Hin as [_ ?]. }
  split.
  - destruct (extractImage_resolved e) as [->|(imageURL & _ & ->)]; [done|].
    apply Hcomma.
  - intros imageURL Hc. unfold resolveImage. rewrite Hc.
    apply Contains_byte_false.
    intros Hin%bytes_TrimSpace%bytes_first_Split. by destruct Hin as [_ ?].
Qed.

(** ** The enrichment pass of package [handler] *)

Lemma merge_ImageURL a imageURL description :
  NewsArticle.ImageURL (Handler.merge a imageURL description) =
  if (NewsArticle.ImageURL a =? "")%string then imageURL else NewsArticle.ImageURL a.
Proof.
  unfold Handler.merge.
  destruct (String.eqb_spec (NewsArticle.ImageURL a) "") as [Himg|Himg];
    destruct (String.eqb_spec imageURL "") as [->|Hfound]; cbn [andb negb];
    destruct ((NewsArticle.Description _ =? "")%string && negb (description =? "")%string);
    simpl; congruence.
Qed.

Lemma merge_Description a imageURL description :
  NewsArticle.Description (Handler.merge a imageURL description) =
  if (NewsArticle.Description a =? "")%string then description
  else NewsArticle.Description a.
Proof.
  unfold Handler.merge.
  destruct ((NewsArticle.ImageURL a =? "")%string && negb (imageURL =? "")%string);
    simpl;
    destruct (String.eqb_spec (NewsArticle.Description a) "") as [Hdesc|Hdesc];
    destruct (String.eqb_spec description "") as [->|Hfound]; cbn [andb negb];
    simpl; congruence.
Qed.

Lemma merge_rest a imageURL description :
  NewsArticle.ID (Handler.merge a imageURL description) = NewsArticle.ID a /\
  NewsArticle.Title (Handler.merge a imageURL description) = NewsArticle.Title a /\
  NewsArticle.URL (Handler.merge a imageURL description) = NewsArticle.URL a /\
  NewsArticle.Source (Handler.merge a imageURL description) = NewsArticle.Source a /\
  NewsArticle.PublishedAt (Handler.merge a imageURL description) =
  NewsArticle.PublishedAt a.
Proof.
  unfold Handler.merge.
  destruct ((NewsArticle.ImageURL a =? "")%string && negb (imageURL =? "")%string);
    simpl;
    destruct ((_ =? "")%string && negb (description =? "")%string); done.
Qed.

Lemma detailed_updateLoop_spec w n : forall i (arts : list NewsArticle.t),
  (i + n)%nat = length arts ->
  Handler.updateLoop w n i arts =
  ((take i arts ++ (Handler.detailed w <$> drop i arts))%list,
   mjoin (Handler.detailEvents w <$> drop i arts)).
Proof.
  induction n as [|n IH]; intros i arts Hlen; simpl.
  - rewrite drop_ge by lia. rewrite take_ge by lia. simpl.
    rewrite app_nil_r. reflexivity.
  - destruct (lookup_lt_is_Some_2 arts i ltac:(lia)) as [a Ha].
    rewrite Ha. rewrite (drop_S _ _ _ Ha). simpl.
    unfold Handler.detailed, Handler.detailEvents.
    destruct ((NewsArticle.ImageURL a =? "")%string
              || (NewsArticle.Description a =? "")%string) eqn:Hempty.
    + unfold mbind, Eff_bind.
      destruct (Handler.scrapeArticleDetailsFromURL w (NewsArticle.URL a))
        as [[[imageURL description]|err] events]; simpl.
      * rewrite IH by (rewrite length_insert; lia).
        rewrite take_S_r with (x := Handler.merge a imageURL description)
          by (apply list_lookup_insert_eq; eapply lookup_lt_Some; eauto).
        rewrite take_insert_ge by lia.
        rewrite drop_insert_lt by lia. simpl.
        rewrite <- !app_assoc. reflexivity.
      * rewrite IH by lia.
        rewrite (take_S_r _ _ _ Ha). simpl.
        rewrite <- !app_assoc. reflexivity.
    + rewrite IH by lia. rewrite (take_S_r _ _ _ Ha). simpl.
      rewrite <- app_assoc. reflexivity.
Qed.

Lemma updateArticleDetails_spec w (arts : list NewsArticle.t) :
  Handler.updateArticleDetails w arts =
  (Handler.detailed w <$> arts, mjoin (Handler.detailEvents w <$> arts)).
Proof.
  unfold Handler.updateArticleDetails.
  rewrite detailed_updateLoop_spec by lia. reflexivity.
Qed.

(** X23. The enrichment pass of package [handler] keeps the length and
    the order of the list, and changes of an article only a field that
    was empty: an article with an image and a description stays as it
    is; for an article that lacks either, the page of its own [url] is
    scraped, and when that succeeds each of the two fields that was empty
    takes what the page yields for it, while a field that was not empty,
    and every other field, stays; when that fails the article stays as it
    is. *)
Theorem details_fill_empty_fields w articles :
  length (Handler.updateArticleDetails w articles).1 = length articles /\
  forall i a,
    articles !! i = Some a ->
    exists a',
      (Handler.updateArticleDetails w articles).1 !! i = Some a' /\
      (NewsArticle.ID a' = NewsArticle.ID a /\
       NewsArticle.Title a' = NewsArticle.Title a /\
       NewsArticle.URL a' = NewsArticle.URL a /\
       NewsArticle.Source a' = NewsArticle.Source a /\
       NewsArticle.PublishedAt a' = NewsArticle.PublishedAt a) /\
      (NewsArticle.ImageURL a <> "" ->
       NewsArticle.ImageURL a' = NewsArticle.ImageURL a) /\
      (NewsArticle.Description a <> "" ->
       NewsArticle.Description a' = NewsArticle.Description a) /\
      (NewsArticle.ImageURL a <> "" -> NewsArticle.Description a <> "" -> a' = a) /\
      (NewsArticle.ImageURL a = "" \/ NewsArticle.Description a = "" ->
       match (Handler.scrapeArticleDetailsFromURL w (NewsArticle.URL a)).1 with
       | Ok (imageURL, description) =>
         (NewsArticle.ImageURL a = "" -> NewsArticle.ImageURL a' = imageURL) /\
         (NewsArticle.Description a = "" -> NewsArticle.Description a' = description)
       | Err _ => a' = a
       end).
Proof.
  rewrite updateArticleDetails_spec. simpl.
  split; [by rewrite length_fmap|].
  intros i a Ha. exists (Handler.detailed w a).
  split; [by rewrite list_lookup_fmap, Ha|].
  unfold Handler.detailed.
  destruct (String.eqb_spec (NewsArticle.ImageURL a) "") as [Himg|Himg];
    destruct (String.eqb_spec (NewsArticle.Description a) "") as [Hdesc|Hdesc];
    cbn [orb]; [| | |by split_and!; try done; intros [?|?]].
  all: destruct (Handler.scrapeArticleDetailsFromURL w (NewsArticle.URL a)).1
         as [[imageURL description]|err]; [|by split_and!].
  all: split; [apply merge_rest|].
  all: rewrite merge_ImageURL, merge_Description.
  all: try (apply String.eqb_neq in Himg as Himg'; rewrite Himg').
  all: try (apply String.eqb_neq in Hdesc as Hdesc'; rewrite Hdesc').
  all: rewrite ?Himg, ?Hdesc; simpl; by split_and!.
Qed.

Lemma scrapeArticleDetailsFromURL_trace w url :
  (Handler.scrapeArticleDetailsFromURL w url).2 =
  match Get w url with NewRequestError _ => [] | _ => [EvGet url] end.
Proof.
  unfold Handler.scrapeArticleDetailsFromURL.
  destruct (Get w url) as [err|err|code [doc|err]]; simpl; try done;
    unfold mbind, Eff_bind; simpl; by destruct (negb (code =? StatusOK)).
Qed.

Lemma detailEvents_requests w a :
  requests (Handler.detailEvents w a) =
  if detailRequested w a then [NewsArticle.URL a] else [].
Proof.
  unfold Handler.detailEvents, detailRequested.
  destruct ((NewsArticle.ImageURL a =? "")%string
            || (NewsArticle.Description a =? "")%string); [|done]. cbn [andb].
  pose proof (scrapeArticleDetailsFromURL_trace w (NewsArticle.URL a)) as Htrace.
  destruct (Handler.scrapeArticleDetailsFromURL w (NewsArticle.URL a)) as [r events].
  simpl in Htrace. subst events.
  destruct r, (Get w (NewsArticle.URL a)); by rewrite requests_app.
Qed.

(** X24. The pages the enrichment pass of package [handler] requests
    are, in order, the pages of the articles that lack an image or a
    description (and whose URL a request can be made for): one request
    each, to the article's own link, none for any other article. *)
Theorem details_requests w articles :
  requests (Handler.updateArticleDetails w articles).2 =
  NewsArticle.URL <$> filter (fun a => detailRequested w a = true) articles.
Proof.
  rewrite updateArticleDetails_spec. simpl.
  induction articles as [|a articles IH]; [done|].
  csimpl. rewrite requests_app, IH, detailEvents_requests, filter_cons.
  destruct (detailRequested w a); by destruct (decide _).
Qed.

(** ** The search for a description on a story page *)

Lemma eachContent_firstContent nodes : forall description,
  Handler.eachContent nodes description =
  if (description =? "")%string then firstContent nodes else description.
Proof.
  unfold Handler.eachContent, firstContent.
  induction nodes as [|s nodes IH]; intros description; simpl.
  - by destruct (String.eqb_spec description "").
  - rewrite IH. destruct (Attr s "content") as [content|]; simpl; [|done].
    destruct (String.eqb_spec description "") as [->|Hne].
    + rewrite filter_cons.
      destruct (decide (strings.TrimSpace content <> "")) as [Hc|Hc]; simpl.
      * by apply String.eqb_neq in Hc as ->.
      * apply dec_stable in Hc. by rewrite Hc.
    + by apply String.eqb_neq in Hne as ->.
Qed.

Lemma eachParagraph_firstParagraph nodes : forall description,
  Handler.eachParagraph nodes description =
  if (description =? "")%string then firstParagraph nodes else description.
Proof.
  unfold Handler.eachParagraph, firstParagraph.
  induction nodes as [|s nodes IH]; intros description; simpl.
  - by destruct (String.eqb_spec description "").
  - rewrite IH. csimpl. rewrite filter_cons.
    set (pText := strings.TrimSpace (Text s)).
    destruct (String.eqb_spec description "") as [->|Hne].
    + rewrite andb_true_r.
      destruct (decide (50 < len pText)) as [Hlong|Hshort].
      * rewrite (proj2 (Z.ltb_lt _ _) Hlong). simpl.
        destruct (String.eqb_spec pText "") as [Hempty|_]; [|done].
        rewrite Hempty in Hlong. unfold len in Hlong. simpl in Hlong. lia.
      * rewrite (proj2 (Z.ltb_ge _ _)) by lia. done.
    + rewrite andb_false_r. by apply String.eqb_neq in Hne as ->.
Qed.

(** X25. On a story page the first of three places that yields a
    non-empty value decides the description package [handler] recovers:
    the [content] of the Open Graph description tag, the [content] of the
    meta description tag (each trimmed, at the first node where it is
    there and not blank), the trimmed text of the first paragraph of more
    than 50 bytes in a content container. A value of more than 200 bytes
    is cut to its first 200 bytes and ["..."]; when all three yield
    nothing the description is empty. *)
Theorem details_description_chain doc :
  Handler.findDescription doc =
  match head (filter (fun value => value <> "") (descriptionCandidates doc)) with
  | Some description =>
    if len description <=? 200 then description
    else substring 0 200 description ++ "..."
  | None => ""
  end.
Proof.
  unfold Handler.findDescription, descriptionCandidates.
  rewrite (eachContent_firstContent _ ""). cbn [String.eqb].
  set (c1 := firstContent (Find doc "meta[property='og:description']")).
  set (c2 := firstContent (Find doc "meta[name='description']")).
  set (c3 := firstParagraph _).
  assert (forall d, d <> "" ->
            (if negb (d =? "")%string && (200 <? len d)
             then strings.slice d 0 200 ++ "..." else d) =
            (if len d <=? 200 then d else substring 0 200 d ++ "...")) as Hcut.
  { intros d Hd. apply String.eqb_neq in Hd. rewrite Hd. cbn [negb andb].
    rewrite Z.leb_antisym. destruct (200 <? len d); [|done]. simpl.
    unfold strings.slice. by rewrite Nat.sub_0_r. }
  rewrite filter_cons. destruct (decide (c1 <> "")) as [H1|H1].
  { simpl. rewrite <- (Hcut c1 H1). apply String.eqb_neq in H1. by rewrite !H1. }
  apply dec_stable in H1. rewrite H1. cbn [String.eqb].
  rewrite (eachContent_firstContent _ ""). cbn [String.eqb]. fold c2.
  rewrite filter_cons. destruct (decide (c2 <> "")) as [H2|H2].
  { simpl. rewrite <- (Hcut c2 H2). apply String.eqb_neq in H2. by rewrite !H2. }
  apply dec_stable in H2. rewrite H2. cbn [String.eqb].
  rewrite (eachParagraph_firstParagraph _ ""). cbn [String.eqb]. fold c3.
  rewrite filter_cons. destruct (decide (c3 <> "")) as [H3|H3].
  { simpl. by rewrite <- (Hcut c3 H3). }
  apply dec_stable in H3. by rewrite H3.
Qed.

(** On [plainPage] the blank meta description and the short paragraph are
    passed over. *)
Example description_of_plainPage :
  Handler.findDescription plainPage =
  "Flood water entered city hall on Monday after a night of heavy rain.".
Proof. vm_compute. reflexivity. Qed.

(** ** The two enrichment passes side by side *)

Lemma findImage_findImageURL url doc :
  findImage url doc =
  if (Handler.findImageURL doc =? "")%string
  then Err ("no image found on page: " ++ url)
  else Ok (Handler.findImageURL doc).
Proof.
  unfold findImage, Handler.findImageURL. cbv zeta.
  set (c1 := eachAttr "data-srcset" (Find doc "picture img") "").
  destruct (String.eqb_spec c1 "") as [H1|H1]; cbn [negb].
  2: { apply String.eqb_neq in H1. by rewrite !H1. }
  rewrite H1.
  set (c2 := eachAttr "data-src" (Find doc "span.lg-gallery") "").
  destruct (String.eqb_spec c2 "") as [H2|H2]; cbn [negb].
  2: { apply String.eqb_neq in H2. by rewrite !H2. }
  rewrite H2.
  set (c3 := eachAttr "content" (Find doc "meta[property='og:image']") "").
  destruct (String.eqb_spec c3 "") as [H3|H3]; cbn [negb].
  2: { apply String.eqb_neq in H3. by rewrite !H3. }
  rewrite H3.
  set (c4 := eachAttr "src" (Find doc "article img, div.section-media img") "").
  by destruct (String.eqb_spec c4 "").
Qed.

Lemma scrape_agree w url :
  (scrapeImageFromURL w url).1 =
  match (Handler.scrapeArticleDetailsFromURL w url).1 with
  | Ok (imageURL, _) =>
    if (imageURL =? "")%string then Err ("no image found on page: " ++ url)
    else Ok imageURL
  | Err err => Err err
  end.
Proof.
  unfold scrapeImageFromURL, Handler.scrapeArticleDetailsFromURL.
  destruct (Get w url) as [err|err|code [doc|err]]; simpl; try done;
    unfold mbind, Eff_bind; simpl;
    destruct (negb (code =? StatusOK)); simpl; try done.
  apply findImage_findImageURL.
Qed.

Lemma enriched_detailed w a :
  enriched w a =
  Handler.setDescription (Handler.detailed w a) (NewsArticle.Description a).
Proof.
  unfold enriched, Handler.detailed. rewrite scrape_agree.
  destruct a as [id title description imageURL url source publishedAt].
  unfold Handler.merge, Handler.setDescription, NewsArticle.setImageURL. simpl.
  destruct (String.eqb_spec imageURL "") as [->|Himg];
    destruct (String.eqb_spec description "") as [->|Hdesc]; simpl;
    try done;
    destruct (Handler.scrapeArticleDetailsFromURL w url).1
      as [[imageURL' description']|err]; simpl; try done;
    destruct (String.eqb_spec imageURL' "") as [->|Himg']; simpl;
    try (destruct (String.eqb_spec description' "") as [->|Hdesc']; simpl);
    try done;
    try (by apply String.eqb_neq in Hdesc as ->).
Qed.

(** X26. The two enrichment passes differ in the description and in
    nothing else of what they return: the pass of this package,
    [updateMissingImageURLs], returns what the pass of package [handler],
    [updateArticleDetails], returns with every description put back to
    what it was; in particular both return the same images. *)
Theorem passes_differ_in_description w articles :
  (updateMissingImageURLs w articles).1 =
  zip_with (fun a' a => Handler.setDescription a' (NewsArticle.Description a))
           (Handler.updateArticleDetails w articles).1 articles /\
  NewsArticle.ImageURL <$> (updateMissingImageURLs w articles).1 =
  NewsArticle.ImageURL <$> (Handler.updateArticleDetails w articles).1.
Proof.
  rewrite updateMissingImageURLs_spec, updateArticleDetails_spec. simpl. split.
  - induction articles as [|a articles IH]; [done|].
    csimpl. by rewrite IH, enriched_detailed.
  - induction articles as [|a articles IH]; [done|].
    csimpl. rewrite IH. f_equal. rewrite enriched_detailed.
    by destruct (Handler.detailed w a).
Qed.

(** X27. The two copies of [fetchTheDailyStarWithColly] fail together,
    with the same error, and when they succeed they return listings of
    the same length that differ, article by article, in the description
    at most: the listing of this package is the listing of package
    [handler] with every description put back to what the crawl read off
    the front page. *)
Theorem listings_differ_in_description w url :
  match (fetchTheDailyStarWithColly w url).1,
        (Handler.fetchTheDailyStarWithColly w url).1 with
  | Ok news, Ok news' =>
    length news = length news' /\
    exists elements,
      Visit w url = Visited elements /\
      news =
      zip_with (fun a' a => Handler.setDescription a' (NewsArticle.Description a))
               news' (articles (crawl w elements))
  | Err err, Err err' => err = err'
  | _, _ => False
  end.
Proof.
  unfold fetchTheDailyStarWithColly, Handler.fetchTheDailyStarWithColly.
  destruct (Visit w url) as [err|elements]; [done|].
  rewrite updateMissingImageURLs_spec, updateArticleDetails_spec. simpl.
  split; [by rewrite !length_fmap|].
  exists elements. split; [done|].
  induction (articles (crawl w elements)) as [|a arts IH]; [done|].
  csimpl. by rewrite IH, enriched_detailed.
Qed.
